(** * devbox: the environment orchestrator, its shellrc template and the
      mutagen installer, embedded in Rocq.

    Part I is the model and follows the Go packages of the repository, one
    module per package.  What a package calls outside the sources (the Nix
    command line, the cue encoder, the planners, the operating system) is an
    interface, [devbox.Collaborators] and [mutagen.Host], that the functions
    take as an argument: every statement holds for all its implementations.
    Part II holds the properties, again one module per package. *)

From stdpp Require Import base strings list gmap.
From Equations Require Import Equations.

(** * Part I: the model *)

(** ** Go's [strings] *)

Module gostrings.

(** [strings.Join]: the elements with the separator between them. *)
Fixpoint Join (elems : list string) (sep : string) : string :=
  match elems with
  | [] => ""
  | [x] => x
  | x :: rest => x +:+ sep +:+ Join rest sep
  end.

End gostrings.

(** ** Go's [path/filepath], on cleaned absolute Unix paths *)

Module filepath.

(** [filepath.Abs] returns a cleaned absolute path.  Such a path is the list
    of its components, root first: the root directory is the empty list and
    /a/b is the list of a and b. *)
Definition path : Type := list string.

Definition root : path := [].

(** [filepath.Dir]: all but the last element; the root is its own parent. *)
Definition Dir (p : path) : path := removelast p.

(** [filepath.Join] of a cleaned path with the components of a relative one. *)
Definition Join (p : path) (rel : list string) : path := p ++ rel.

(** The path as the string the program handles. *)
Definition to_string (p : path) : string := "/" +:+ gostrings.Join p "/".

(** The chain a walk towards the root visits: the directory itself, its
    parent, and so on, ending with the root. *)
Definition ancestors (p : path) : list path :=
  (fun n => take n p) <$> reverse (seq 0 (S (length p))).

End filepath.

(** ** Errors *)

(** The errors the modelled functions build.  Collaborators report theirs as
    text ([ErrExternal]); [ErrNew] is [errors.New]; [errors.WithStack] only
    attaches a stack trace and is the identity here. *)
Inductive error : Type :=
| ErrExternal (msg : string)
| ErrNew (msg : string)
| ErrPackageNotFound (pkg : string)
| ErrMissingDevboxJSON (shown : string)
| ErrWrap (e : error) (msg : string)
| ErrRunExit (cmd : list string) (code : Z) (stderr : string)
| ErrRun (cmd : list string) (cause : string)
| ErrTemplate (name : string) (cause : string).

Definition result (A : Type) : Type := error + A.

(** ** Package [plansdk] *)

Module plansdk.

(** Modelled from the spec: the declaration of [plansdk.Stage] is not among
    the sources.  A stage is its ordered sequence of shell commands, and a
    stage with an empty sequence is absent. *)
Record Stage : Type := { Command : list string }.

(** The zero value [&plansdk.Stage{}]. *)
Definition zeroStage : Stage := {| Command := [] |}.

Definition absent (s : Stage) : bool :=
  match Command s with [] => true | _ :: _ => false end.

(** Modelled from the spec: the declaration of [plansdk.Plan] is not among
    the sources; these are the five fields [convertToPlan] fills. *)
Record Plan : Type := {
  DevPackages : list string;
  RuntimePackages : list string;
  InstallStage : Stage;
  BuildStage : Stage;
  StartStage : Stage
}.

(** Modelled from the spec: [union], the package lists of the user plan
    first, then the inferred entries not already present. *)
Fixpoint union (user inferred : list string) : list string :=
  match inferred with
  | [] => user
  | p :: rest =>
      if bool_decide (p ∈ user) then union user rest else union (user ++ [p]) rest
  end.

(** Modelled from the spec: the user's stage wins when it is not absent,
    otherwise the inferred stage is used as it is. *)
Definition mergeStage (user inferred : Stage) : Stage :=
  if absent user then inferred else user.

(** Modelled from the spec: [plansdk.MergeUserPlan] is not among the
    sources.  Section 4.3: packages are united, stages follow the user
    override rule, and a hard conflict yields an error and no plan.  The spec
    leaves open when a planner reports a hard conflict, so the condition
    [hardConflict] is a parameter. *)
Definition MergeUserPlan (hardConflict : Plan -> Plan -> option string)
    (userPlan inferred : Plan) : result Plan :=
  match hardConflict userPlan inferred with
  | Some msg => inl (ErrExternal msg)
  | None =>
      inr {| DevPackages := union (DevPackages userPlan) (DevPackages inferred);
             RuntimePackages := union (RuntimePackages userPlan) (RuntimePackages inferred);
             InstallStage := mergeStage (InstallStage userPlan) (InstallStage inferred);
             BuildStage := mergeStage (BuildStage userPlan) (BuildStage inferred);
             StartStage := mergeStage (StartStage userPlan) (StartStage inferred) |}
  end.

(** The scenario of the spec: the user declares a build stage, the inferred
    plan of a detected ecosystem declares another one and an install stage. *)
Definition demoUserPlan : Plan :=
  {| DevPackages := ["git"]; RuntimePackages := ["git"];
     InstallStage := zeroStage;
     BuildStage := {| Command := ["make"] |};
     StartStage := zeroStage |}.

Definition demoInferredPlan : Plan :=
  {| DevPackages := ["nodejs"]; RuntimePackages := ["nodejs"];
     InstallStage := {| Command := ["npm install"] |};
     BuildStage := {| Command := ["npm run build"] |};
     StartStage := {| Command := ["npm start"] |} |}.

End plansdk.

(** ** Package [slices] (golang.org/x/exp) *)

Module slices.

(** [slices.Contains]: a left-to-right scan with [==]. *)
Fixpoint Contains (s : list string) (v : string) : bool :=
  match s with
  | [] => false
  | x :: rest => if String.eqb v x then true else Contains rest v
  end.

End slices.

(** ** Package [pkgslice] *)

Module pkgslice.

(** Modelled from the spec: [pkgslice.Exclude] is not among the sources.
    Section 3: Remove is a set difference, a no-op for packages that are not
    present; the remaining packages keep their order. *)
Definition Exclude (s elems : list string) : list string :=
  List.filter (fun p => negb (slices.Contains elems p)) s.

End pkgslice.

(** ** Go's [strconv] and [strings] *)

Module strconv.

(** [strconv.ParseBool]: the accepted spellings, any other text is an error. *)
Definition ParseBool (str : string) : option bool :=
  if bool_decide (str ∈ ["1"; "t"; "T"; "TRUE"; "true"; "True"]) then Some true
  else if bool_decide (str ∈ ["0"; "f"; "F"; "FALSE"; "false"; "False"]) then Some false
  else None.

End strconv.

(** ** The artifact generator *)

Module generator.

(** Modelled from the spec: the function [generate] and its template sets
    are not among the sources.  Section 4.4: a template set maps each
    template name to an output path relative to the target directory, and a
    template renders a plan and a context to text or fails with a cause. *)
Record template (Ctx : Type) : Type := {
  tmplName : string;
  tmplOut : list string;
  tmplRender : plansdk.Plan -> Ctx -> string + string
}.
Arguments tmplName {Ctx} _.
Arguments tmplOut {Ctx} _.
Arguments tmplRender {Ctx} _ _ _.

(** The files of the machine: path to contents. *)
Abbreviation filesystem := (gmap string string).

(** Modelled from the spec: [generate] rewrites the whole output set on
    every call, one template after the other; the first template that fails
    aborts the call with its name and cause, and the files written before
    stay in place. *)
Fixpoint generate {Ctx : Type} (targetDir : filepath.path) (plan : plansdk.Plan)
    (ctx : Ctx) (templateSet : list (template Ctx)) (fs : filesystem)
    : option error * filesystem :=
  match templateSet with
  | [] => (None, fs)
  | t :: rest =>
      match tmplRender t plan ctx with
      | inl cause => (Some (ErrTemplate (tmplName t) cause), fs)
      | inr text =>
          generate targetDir plan ctx rest
            (<[filepath.to_string (filepath.Join targetDir (tmplOut t)) := text]> fs)
      end
  end.

(** The writes of a call, in order: each replaces the whole file. *)
Definition applyWrites (W : list (string * string)) (fs : filesystem) : filesystem :=
  foldl (fun m kv => <[kv.1 := kv.2]> m) fs W.

(** What a call of [generate] returns and writes, whatever the files were. *)
Fixpoint outputs {Ctx : Type} (targetDir : filepath.path) (plan : plansdk.Plan)
    (ctx : Ctx) (templateSet : list (template Ctx)) : option error * list (string * string) :=
  match templateSet with
  | [] => (None, [])
  | t :: rest =>
      match tmplRender t plan ctx with
      | inl cause => (Some (ErrTemplate (tmplName t) cause), [])
      | inr text =>
          let r := outputs targetDir plan ctx rest in
          (fst r, (filepath.to_string (filepath.Join targetDir (tmplOut t)), text) :: snd r)
      end
  end.

(** The last text written to [k], if any. *)
Definition lastWrite (k : string) (W : list (string * string)) : option string :=
  foldl (fun acc kv => if decide (kv.1 = k) then Some kv.2 else acc) None W.

End generator.

(** ** Package [devbox] *)

Module devbox.

Import filepath.

(** configFilename is name of the JSON file that defines a devbox environment. *)
Definition configFilename : string := "devbox.json".

(** The profile link and the shell history file, relative to the environment
    root. *)
Definition profileDir : list string := [".devbox"; "nix"; "profile"; "default"].

(** Modelled from the spec: the declarations of [Config] and of its [Stage]
    are not among the sources.  Section 3: the package list, three optional
    stages and the shell initialisation hook. *)
Record Stage : Type := { Command : list string }.

Record Config : Type := {
  Packages : list string;
  InstallStage : option Stage;
  BuildStage : option Stage;
  StartStage : option Stage;
  ShellInitHook : string
}.

Definition withPackages (c : Config) (pkgs : list string) : Config :=
  {| Packages := pkgs;
     InstallStage := InstallStage c;
     BuildStage := BuildStage c;
     StartStage := StartStage c;
     ShellInitHook := ShellInitHook c |}.

(** installMode is an enum for ensurePackagesAreInstalled. *)
Inductive installMode : Type := install | uninstall.

(** The two template sets [generate] is called with. *)
Inductive fileSet : Type := shellFiles | buildFiles.

(** What a call does to the world outside the [Devbox] value, in order. *)
Inductive event : Type :=
| EvWriteConfig (file : path) (c : Config)
| EvGenerate (dir : path) (plan : plansdk.Plan) (set : fileSet)
| EvMkdirAll (dir : path)
| EvExec (cmd : list string)
| EvStdout (text : string)
| EvStdoutError (e : error)
| EvStdoutPlan (plan : plansdk.Plan)
| EvWriter (text : string).

(** How [cmd.Run] ends: nil, an [*exec.ExitError], or another error. *)
Inductive runResult : Type :=
| RunOk
| RunExit (code : Z) (stderr : string)
| RunFailed (cause : string).

(** Devbox provides an isolated development environment that contains a set
    of Nix packages.  The [writer] field is an output stream: what is written
    to it is the [EvWriter] events of the trace. *)
Record Devbox : Type := {
  cfg : Config;
  srcDir : path
}.

(** A [*Devbox] receiver together with the files of the machine and the trace
    of effects so far. *)
Record State : Type := {
  box : Devbox;
  files : generator.filesystem;
  trace : list event
}.

Definition setCfg (c : Config) (s : State) : State :=
  {| box := {| cfg := c; srcDir := srcDir (box s) |}; files := files s; trace := trace s |}.
Definition setFiles (f : generator.filesystem) (s : State) : State :=
  {| box := box s; files := f; trace := trace s |}.
Definition addEvent (e : event) (s : State) : State :=
  {| box := box s; files := files s; trace := trace s ++ [e] |}.

(** *** The monad of a method of [*Devbox]: state and an error result *)

Definition M (A : Type) : Type := State -> result A * State.

Definition ret {A : Type} (a : A) : M A := fun s => (inr a, s).
Definition fail {A : Type} (e : error) : M A := fun s => (inl e, s).
Definition bind {A B : Type} (m : M A) (k : A -> M B) : M B :=
  fun s => match m s with
           | (inl e, s') => (inl e, s')
           | (inr a, s') => k a s'
           end.
(** [err := m()] followed by code that inspects [err]: the error is a value. *)
Definition attempt (m : M unit) : M (option error) :=
  fun s => match m s with
           | (inl e, s') => (inr (Some e), s')
           | (inr _, s') => (inr None, s')
           end.
(** Reading the receiver [d]. *)
Definition getBox : M Devbox := fun s => (inr (box s), s).
Definition modify (f : State -> State) : M unit := fun s => (inr tt, f s).
Definition emit (e : event) : M unit := modify (addEvent e).
(** A call that rewrites files and returns an [error]. *)
Definition onFiles (g : generator.filesystem -> option error * generator.filesystem) : M unit :=
  fun s => (match fst (g (files s)) with Some e => inl e | None => inr tt end,
            setFiles (snd (g (files s))) s).
(** A Go call that returns only an [error]: nil is [None]. *)
Definition check (o : option error) : M unit :=
  match o with Some e => fail e | None => ret tt end.
Definition lift {A : Type} (r : result A) : M A :=
  match r with inl e => fail e | inr a => ret a end.

Declare Scope go_scope.
Delimit Scope go_scope with go.
Notation "x <- m ;; k" := (bind m (fun x => k))
  (at level 100, m at next level, right associativity) : go_scope.
Notation "m ;;; k" := (bind m (fun _ => k))
  (at level 100, right associativity) : go_scope.
Open Scope go_scope.

Definition nl : string := String (Ascii.ascii_of_nat 10) EmptyString.

(** *** The collaborators of the package

    What the package calls outside the sources, as an interface; the methods
    take it as an implicit argument. *)
Class Collaborators : Type := {
  (** [nix.PkgExists]: the package index. *)
  PkgExists : string -> bool;
  (** [cuecfg.WriteFile]: the encoding of a config, and the failure of a write. *)
  marshal : Config -> string;
  writeFileErr : path -> option string;
  (** The template sets [shellFiles] and [buildFiles]; a template reads the
      context it needs off the environment root the call passes. *)
  shellTemplates : list (generator.template path);
  buildTemplates : list (generator.template path);
  (** [planner.GetBuildPlan], and the conflicts [plansdk.MergeUserPlan] reports. *)
  GetBuildPlan : path -> result plansdk.Plan;
  hardConflict : plansdk.Plan -> plansdk.Plan -> option string;
  (** [Plan.Invalid] with [Plan.Error], and [Plan.Warning]. *)
  planInvalid : plansdk.Plan -> option error;
  planWarning : plansdk.Plan -> option string;
  (** [os.MkdirAll], [exec.Cmd.Run] and [os.Getenv]. *)
  mkdirAllErr : path -> option string;
  run : list string -> runResult;
  Getenv : string -> string;
  (** [filepath.Abs], [plansdk.FileExists] and [ReadConfig]; and the directory
      relative to the working directory, when [os.Getwd] and [filepath.Rel]
      both succeed. *)
  Abs : string -> string + path;
  FileExists : path -> bool;
  ReadConfig : path -> string + Config;
  relToWd : string -> option string
}.

Section Methods.
Context `{world : Collaborators}.

(** Move to a utility package? *)
Definition IsDevboxShellEnabled : bool :=
  match strconv.ParseBool (Getenv "DEVBOX_SHELL_ENABLED") with
  | None => false
  | Some inDevboxShell => inDevboxShell
  end.

(** saveCfg writes the config file to the devbox directory. *)
Definition saveCfg : M unit :=
  d <- getBox ;;
  let cfgPath := Join (srcDir d) [configFilename] in
  emit (EvWriteConfig cfgPath (cfg d)) ;;;
  match writeFileErr cfgPath with
  | Some msg => fail (ErrExternal msg)
  | None => modify (fun s => setFiles (<[to_string cfgPath := marshal (cfg d)]> (files s)) s)
  end.

(** The loop of [convertToPlan]: [planStages[i]] is replaced where the
    config stage is not nil. *)
Fixpoint fillStages (i : nat) (configStages : list (option Stage))
    (planStages : list plansdk.Stage) : list plansdk.Stage :=
  match configStages with
  | [] => planStages
  | stage :: rest =>
      fillStages (S i) rest
        match stage with
        | Some st => <[i := {| plansdk.Command := Command st |}]> planStages
        | None => planStages
        end
  end.

Definition stageAt (planStages : list plansdk.Stage) (i : nat) : plansdk.Stage :=
  default plansdk.zeroStage (planStages !! i).

(** The plan [convertToPlan] builds from the config. *)
Definition planOf (c : Config) : plansdk.Plan :=
  let configStages := [InstallStage c; BuildStage c; StartStage c] in
  let planStages :=
    fillStages 0 configStages [plansdk.zeroStage; plansdk.zeroStage; plansdk.zeroStage] in
  {| plansdk.DevPackages := Packages c;
     plansdk.RuntimePackages := Packages c;
     plansdk.InstallStage := stageAt planStages 0;
     plansdk.BuildStage := stageAt planStages 1;
     plansdk.StartStage := stageAt planStages 2 |}.

Definition convertToPlan : M plansdk.Plan :=
  d <- getBox ;;
  let p := planOf (cfg d) in
  emit (EvStdoutPlan p) ;;;
  ret p.

(** Plan creates a plan of the actions that devbox will take to generate its
    shell environment. *)
Definition ShellPlan : M plansdk.Plan := convertToPlan.

Definition BuildPlan : M plansdk.Plan :=
  userPlan <- convertToPlan ;;
  d <- getBox ;;
  buildPlan <- lift (GetBuildPlan (srcDir d)) ;;
  lift (plansdk.MergeUserPlan hardConflict userPlan buildPlan).

Definition templatesOf (set : fileSet) : list (generator.template path) :=
  match set with shellFiles => shellTemplates | buildFiles => buildTemplates end.

(** The call [generate(d.srcDir, plan, files)]. *)
Definition generate (plan : plansdk.Plan) (set : fileSet) : M unit :=
  d <- getBox ;;
  emit (EvGenerate (srcDir d) plan set) ;;;
  onFiles (generator.generate (srcDir d) plan (srcDir d) (templatesOf set)).

Definition generateShellFiles : M unit :=
  plan <- ShellPlan ;;
  err <- attempt (generate plan shellFiles) ;;
  emit (EvStdout ("Done generating!" +:+ nl)) ;;;
  check err.

Definition generateBuildFiles : M unit :=
  buildPlan <- BuildPlan ;;
  check (planInvalid buildPlan) ;;;
  match planWarning buildPlan with
  | Some w => emit (EvStdout ("[WARNING]: " +:+ w +:+ nl))
  | None => ret tt
  end ;;;
  generate buildPlan buildFiles.

(** Generate creates the directory of Nix files and the Dockerfile that
    define the devbox environment. *)
Definition Generate : M unit :=
  generateShellFiles ;;;
  generateBuildFiles.

(** The method [profileDir]: the profile path, after making sure its
    directory exists. *)
Definition Devbox_profileDir : M path :=
  d <- getBox ;;
  let absPath := Join (srcDir d) profileDir in
  emit (EvMkdirAll (Dir absPath)) ;;;
  match mkdirAllErr (Dir absPath) with
  | Some msg => fail (ErrExternal msg)
  | None => ret absPath
  end.

(** applyDevNixDerivation installs or uninstalls packages to or from this
    devbox's Nix profile so that it matches what's in development.nix. *)
Definition applyDevNixDerivation : M unit :=
  profile <- Devbox_profileDir ;;
  d <- getBox ;;
  let cmd := ["nix-env"; "--profile"; to_string profile; "--install"; "-f";
              to_string (Join (srcDir d) [".devbox"; "gen"; "development.nix"])] in
  emit (EvExec cmd) ;;;
  match run cmd with
  | RunExit code stderr => fail (ErrRunExit cmd code stderr)
  | RunFailed cause => fail (ErrRun cmd cause)
  | RunOk => ret tt
  end.

Definition ensurePackagesAreInstalled (mode : installMode) : M unit :=
  err <- attempt generateShellFiles ;;
  match err with
  | Some e => emit (EvStdoutError e) ;;; fail e
  | None =>
      let installingVerb :=
        match mode with uninstall => "Uninstalling" | install => "Installing" end in
      emit (EvStdout (installingVerb +:+ " nix packages. This may take a while...")) ;;;
      (* We need to re-install the packages *)
      err <- attempt applyDevNixDerivation ;;
      match err with
      | Some e => emit (EvStdout nl) ;;; fail (ErrWrap e "apply Nix derivation")
      | None => emit (EvStdout ("done." +:+ nl))
      end
  end.

Definition printPackageUpdateMessage (mode : installMode) (pkgs : list string) : M unit :=
  if (0 <? length pkgs)%nat && IsDevboxShellEnabled then
    let installedVerb :=
      match mode with uninstall => "removed" | install => "installed" end in
    let successMsg :=
      if (1 <? length pkgs)%nat
      then gostrings.Join pkgs ", " +:+ " are now " +:+ installedVerb +:+ "."
      else default "" (head pkgs) +:+ " is now " +:+ installedVerb +:+ "." in
    emit (EvWriter successMsg) ;;;
    emit (EvWriter (" Run `hash -r` to ensure your shell is updated." +:+ nl))
  else ret tt.

(** The first loop of [Add]: check packages are valid before adding. *)
Fixpoint validate (pkgs : list string) : option error :=
  match pkgs with
  | [] => None
  | pkg :: rest =>
      if PkgExists pkg then validate rest else Some (ErrPackageNotFound pkg)
  end.

(** The second loop of [Add]: add to Packages only if it's not already there. *)
Fixpoint addMissing (packages pkgs : list string) : list string :=
  match pkgs with
  | [] => packages
  | pkg :: rest =>
      if slices.Contains packages pkg then addMissing packages rest
      else addMissing (packages ++ [pkg]) rest
  end.

(** Add adds a Nix package to the config so that it's available in the devbox
    environment. *)
Definition Add (pkgs : list string) : M unit :=
  check (validate pkgs) ;;;
  d <- getBox ;;
  modify (setCfg (withPackages (cfg d) (addMissing (Packages (cfg d)) pkgs))) ;;;
  saveCfg ;;;
  ensurePackagesAreInstalled install ;;;
  printPackageUpdateMessage install pkgs.

(** Remove removes Nix packages from the config so that it no longer exists in
    the devbox environment. *)
Definition Remove (pkgs : list string) : M unit :=
  d <- getBox ;;
  modify (setCfg (withPackages (cfg d) (pkgslice.Exclude (Packages (cfg d)) pkgs))) ;;;
  saveCfg ;;;
  ensurePackagesAreInstalled uninstall ;;;
  printPackageUpdateMessage uninstall pkgs.

(** *** Opening an environment *)

Definition missingDevboxJSONError (dir : string) : error :=
  ErrMissingDevboxJSON
    (if bool_decide (dir = ".") || bool_decide (dir = "") then "this directory"
     else default dir (relToWd dir)).

(** The loop of [findConfigDir] and the test of the root that follows it.
    [debug.Log] is silent unless debugging is on and is left out. *)
Equations? findUp (cur : path) : option path by wf (length cur) lt :=
  findUp cur with decide (cur = root) := {
    | left _ :=
        if FileExists (Join cur [configFilename]) then Some cur else None
    | right _ :=
        if FileExists (Join cur [configFilename]) then Some cur
        else findUp (Dir cur) }.
Proof.
  unfold Dir, root in *.
  destruct cur as [|a cur _] using rev_ind; [done|].
  rewrite removelast_last, length_app. simpl. lia.
Qed.

Definition findConfigDir (dir : string) : result path :=
  match Abs dir with
  | inl msg => inl (ErrExternal msg)
  | inr cur =>
      match findUp cur with
      | Some found => inr found
      | None => inl (missingDevboxJSONError dir)
      end
  end.

(** Open opens a devbox by reading the config file in dir. *)
Definition Open (dir : string) : result Devbox :=
  match findConfigDir dir with
  | inl err => inl err
  | inr cfgDir =>
      let cfgPath := Join cfgDir [configFilename] in
      match ReadConfig cfgPath with
      | inl msg => inl (ErrExternal msg)
      | inr c => inr {| cfg := c; srcDir := cfgDir |}
      end
  end.

(** *** The footprint of a method *)

(** From receiver [b] the computation returns [r], leaves receiver [b'],
    performs the writes [W] and appends the events [E], whatever the files
    and the trace were. *)
Definition footprint {A : Type} (m : M A) (b : Devbox) (r : result A)
    (b' : Devbox) (W : list (string * string)) (E : list event) : Prop :=
  forall fs tr,
    m {| box := b; files := fs; trace := tr |}
    = (r, {| box := b'; files := generator.applyWrites W fs; trace := tr ++ E |}).

(** A method that does not touch its receiver. *)
Definition steady {A : Type} (m : M A) : Prop :=
  forall b, exists r W E, footprint m b r b W E.

(** What follows the update of the package list in [Add] and [Remove]. *)
Definition persistAndInstall (mode : installMode) (pkgs : list string) : M unit :=
  saveCfg ;;;
  ensurePackagesAreInstalled mode ;;;
  printPackageUpdateMessage mode pkgs.

(** *** A call in which every collaborator succeeds *)

(** The write of the config, the rendering of the shell files, the creation
    of the profile directory and the run of nix-env all succeed. *)
Definition collaboratorsSucceed (b : Devbox) : Prop :=
  writeFileErr (Join (srcDir b) [configFilename]) = None /\
  (forall plan, fst (generator.outputs (srcDir b) plan (srcDir b) shellTemplates) = None) /\
  mkdirAllErr (Dir (Join (srcDir b) profileDir)) = None /\
  (forall cmd, run cmd = RunOk).

(** The command line of [applyDevNixDerivation]. *)
Definition nixEnvCmd (b : Devbox) : list string :=
  ["nix-env"; "--profile"; to_string (Join (srcDir b) profileDir); "--install"; "-f";
   to_string (Join (srcDir b) [".devbox"; "gen"; "development.nix"])].

(** The effects of [saveCfg] followed by [ensurePackagesAreInstalled]. *)
Definition installEvents (mode : installMode) (b : Devbox) : list event :=
  [ EvWriteConfig (Join (srcDir b) [configFilename]) (cfg b);
    EvStdoutPlan (planOf (cfg b));
    EvGenerate (srcDir b) (planOf (cfg b)) shellFiles;
    EvStdout ("Done generating!" +:+ nl);
    EvStdout (match mode with uninstall => "Uninstalling" | install => "Installing" end
              +:+ " nix packages. This may take a while...");
    EvMkdirAll (Dir (Join (srcDir b) profileDir));
    EvExec (nixEnvCmd b);
    EvStdout ("done." +:+ nl) ].

(** What [printPackageUpdateMessage] writes to the writer. *)
Definition messageEvents (mode : installMode) (pkgs : list string) : list event :=
  if (0 <? length pkgs)%nat && IsDevboxShellEnabled then
    [ EvWriter
        (if (1 <? length pkgs)%nat
         then gostrings.Join pkgs ", " +:+ " are now "
              +:+ match mode with uninstall => "removed" | install => "installed" end +:+ "."
         else default "" (head pkgs) +:+ " is now "
              +:+ match mode with uninstall => "removed" | install => "installed" end +:+ ".");
      EvWriter (" Run `hash -r` to ensure your shell is updated." +:+ nl) ]
  else [].

End Methods.

(** *** A concrete environment *)

(** A package index that knows git and go, collaborators that always
    succeed, one shell template, and a file system whose only devbox.json is
    in /home/proj. *)
Definition demoPkgExists (pkg : string) : bool := bool_decide (pkg ∈ ["git"; "go"]).
Definition demoMarshal (c : Config) : string := gostrings.Join (Packages c) ",".
Definition demoWriteFileErr (_ : path) : option string := None.
Definition demoShellTemplates : list (generator.template path) :=
  [ {| generator.tmplName := "shell.nix.tmpl";
       generator.tmplOut := [".devbox"; "gen"; "shell.nix"];
       generator.tmplRender :=
         fun plan _ => inr (gostrings.Join (plansdk.DevPackages plan) " ") |} ].
Definition demoBuildTemplates : list (generator.template path) := [].
Definition demoGetBuildPlan (_ : path) : result plansdk.Plan :=
  inr {| plansdk.DevPackages := ["nodejs"]; plansdk.RuntimePackages := ["nodejs"];
         plansdk.InstallStage := {| plansdk.Command := ["npm install"] |};
         plansdk.BuildStage := {| plansdk.Command := ["npm run build"] |};
         plansdk.StartStage := {| plansdk.Command := ["npm start"] |} |}.
Definition demoNoConflict (_ _ : plansdk.Plan) : option string := None.
Definition demoPlanInvalid (_ : plansdk.Plan) : option error := None.
Definition demoPlanWarning (_ : plansdk.Plan) : option string := None.
Definition demoMkdirAllErr (_ : path) : option string := None.
Definition demoRun (_ : list string) : runResult := RunOk.
Definition demoGetenv (_ : string) : string := "1".
Definition demoAbs (_ : string) : string + path := inr ["home"; "proj"; "sub"].
Definition demoFileExists (p : path) : bool :=
  bool_decide (p = ["home"; "proj"; "devbox.json"]).
Definition demoRelToWd (_ : string) : option string := None.

Definition demoConfig : Config :=
  {| Packages := ["git"]; InstallStage := None;
     BuildStage := Some {| Command := ["make"] |}; StartStage := None;
     ShellInitHook := "" |}.
Definition demoReadConfig (_ : path) : string + Config := inr demoConfig.

Definition demoState : State :=
  {| box := {| cfg := demoConfig; srcDir := ["home"; "proj"] |};
     files := ∅; trace := [] |}.


(** The collaborators of the concrete environment. *)
Definition demoWorld : Collaborators :=
  {| PkgExists := demoPkgExists;
     marshal := demoMarshal;
     writeFileErr := demoWriteFileErr;
     shellTemplates := demoShellTemplates;
     buildTemplates := demoBuildTemplates;
     GetBuildPlan := demoGetBuildPlan;
     hardConflict := demoNoConflict;
     planInvalid := demoPlanInvalid;
     planWarning := demoPlanWarning;
     mkdirAllErr := demoMkdirAllErr;
     run := demoRun;
     Getenv := demoGetenv;
     Abs := demoAbs;
     FileExists := demoFileExists;
     ReadConfig := demoReadConfig;
     relToWd := demoRelToWd |}.

(** The same machine without any devbox.json, entered at /home/proj. *)
Definition bareWorld : Collaborators :=
  {| PkgExists := demoPkgExists;
     marshal := demoMarshal;
     writeFileErr := demoWriteFileErr;
     shellTemplates := demoShellTemplates;
     buildTemplates := demoBuildTemplates;
     GetBuildPlan := demoGetBuildPlan;
     hardConflict := demoNoConflict;
     planInvalid := demoPlanInvalid;
     planWarning := demoPlanWarning;
     mkdirAllErr := demoMkdirAllErr;
     run := demoRun;
     Getenv := demoGetenv;
     Abs := fun _ => inr ["home"; "proj"];
     FileExists := fun _ => false;
     ReadConfig := demoReadConfig;
     relToWd := demoRelToWd |}.

End devbox.

(** ** Package [nix]: the shellrc template *)

Module nix.

(** The double quote and the newline, as strings. *)
Definition dq : string := String (Ascii.ascii_of_nat 34) EmptyString.
Definition nl : string := String (Ascii.ascii_of_nat 10) EmptyString.

(** A text given line by line: the lines with a newline between them. *)
Definition lines (l : list string) : string := gostrings.Join l nl.

(** The data shellrc.tmpl is executed with: the fields the template reads.
    The struct itself is declared outside the sources. *)
Record shellrcData : Type := {
  OriginalInit : string;
  OriginalInitPath : string;
  PathPrepend : string;
  HistoryFile : string;
  UserHook : string;
  ConfigDir : string;
  PlanInitHook : string;
  ScriptCommand : string
}.

Inductive field : Type :=
| FOriginalInit | FOriginalInitPath | FPathPrepend | FHistoryFile
| FUserHook | FConfigDir | FPlanInitHook | FScriptCommand.

Definition fieldValue (d : shellrcData) (f : field) : string :=
  match f with
  | FOriginalInit => OriginalInit d
  | FOriginalInitPath => OriginalInitPath d
  | FPathPrepend => PathPrepend d
  | FHistoryFile => HistoryFile d
  | FUserHook => UserHook d
  | FConfigDir => ConfigDir d
  | FPlanInitHook => PlanInitHook d
  | FScriptCommand => ScriptCommand d
  end.

(** *** Go's [text/template], as far as the template uses it *)

(** What stands between the delimiters: a comment, [if .F], [.F] or [end]. *)
Inductive action : Type :=
| AComment
| AIf (f : field)
| APrint (f : field)
| AEnd.

(** A template is text and actions; an action carries its two trim markers,
    the dash after the opening and the dash before the closing delimiter. *)
Inductive token : Type :=
| Text (s : string)
| Action (trimBefore : bool) (a : action) (trimAfter : bool).

(** The characters a trim marker removes: space, tab, carriage return and
    newline. *)
Definition isSpace (c : Ascii.ascii) : bool :=
  bool_decide (Ascii.nat_of_ascii c ∈ [32; 9; 13; 10]).

Definition emptyb (s : string) : bool :=
  match s with EmptyString => true | String _ _ => false end.

Fixpoint trimLeft (s : string) : string :=
  match s with
  | EmptyString => EmptyString
  | String c rest => if isSpace c then trimLeft rest else s
  end.

Fixpoint trimRight (s : string) : string :=
  match s with
  | EmptyString => EmptyString
  | String c rest =>
      let rest' := trimRight rest in
      if isSpace c && emptyb rest' then EmptyString else String c rest'
  end.

(** An [if] is true for a non-empty string. *)
Definition truth (s : string) : bool := negb (emptyb s).

(** Text and fields are written when every enclosing [if] is true. *)
Definition live (stack : list bool) : bool := forallb id stack.

(** Execution, left to right.  [trimNext] is the trim marker of the action
    just before; [stack] holds the conditions of the open [if]s. *)
Fixpoint exec (d : shellrcData) (toks : list token) (trimNext : bool)
    (stack : list bool) : string :=
  match toks with
  | [] => EmptyString
  | Text s :: rest =>
      let s1 := if trimNext then trimLeft s else s in
      let s2 := match rest with
                | Action true _ _ :: _ => trimRight s1
                | _ => s1
                end in
      (if live stack then s2 else EmptyString) +:+ exec d rest false stack
  | Action _ a trimAfter :: rest =>
      match a with
      | AComment => exec d rest trimAfter stack
      | AIf f => exec d rest trimAfter (truth (fieldValue d f) :: stack)
      | APrint f =>
          (if live stack then fieldValue d f else EmptyString)
          +:+ exec d rest trimAfter stack
      | AEnd => exec d rest trimAfter (tail stack)
      end
  end.

(** *** shellrc.tmpl

    The template, token by token.  It includes the user's original shellrc
    and appends the user-defined shell hooks from devbox.json; the commands of
    the Devbox Post-init Hook section set the PATH and the prompt after the
    user's shellrc has run. *)
Definition shellrcTmpl : list token :=
  [ Action true AComment true;
    Text (lines ["";
                 "";
                 ""]);
    Action true (AIf FOriginalInit) true;
    Text (lines ["";
                 "";
                 "# Begin "]);
    Action false (APrint FOriginalInitPath) false;
    Text (lines ["";
                 "";
                 ""]);
    Action false (APrint FOriginalInit) false;
    Text (lines ["";
                 "";
                 "# End "]);
    Action false (APrint FOriginalInitPath) false;
    Text (lines ["";
                 "";
                 ""]);
    Action false AEnd true;
    Text (lines ["";
                 "";
                 "# Begin Devbox Post-init Hook";
                 "";
                 ("PATH=" +:+ dq)]);
    Action false (APrint FPathPrepend) false;
    Text (lines [(":$PATH" +:+ dq);
                 "";
                 ""]);
    Action true (AIf FHistoryFile) false;
    Text (lines ["";
                 "HISTFILE="]);
    Action false (APrint FHistoryFile) false;
    Text (lines ["";
                 ""]);
    Action true AEnd false;
    Text (lines ["";
                 "";
                 "# Prepend to the prompt to make it clear we're in a devbox shell.";
                 ("export PS1=" +:+ dq +:+ "(devbox) $PS1" +:+ dq);
                 "";
                 "# End Devbox Post-init Hook";
                 "";
                 ""]);
    Action true (AIf FUserHook) false;
    Text (lines ["";
                 "";
                 "# Begin Devbox User Hook";
                 "";
                 "# Switch to the directory where devbox.json config is";
                 "workingDir=$(pwd)";
                 "cd "]);
    Action false (APrint FConfigDir) false;
    Text (lines ["";
                 "";
                 ""]);
    Action false (APrint FUserHook) false;
    Text (lines ["";
                 "";
                 "cd $workingDir";
                 "";
                 "# End Devbox User Hook";
                 "";
                 ""]);
    Action true AEnd false;
    Text (lines ["";
                 "";
                 "# Begin Plan Init Hook";
                 "";
                 ""]);
    Action true (AIf FPlanInitHook) false;
    Text (lines ["";
                 "";
                 ""]);
    Action false (APrint FPlanInitHook) false;
    Text (lines ["";
                 "";
                 ""]);
    Action true AEnd false;
    Text (lines ["";
                 "";
                 "# End Plan Init Hook";
                 "";
                 "# Begin Script command";
                 "";
                 ""]);
    Action true (AIf FScriptCommand) false;
    Text (lines ["";
                 "";
                 "function run_script {";
                 "    workingDir=$(pwd)";
                 "    cd "]);
    Action false (APrint FConfigDir) false;
    Text (lines ["";
                 "";
                 "    "]);
    Action false (APrint FScriptCommand) false;
    Text (lines ["";
                 "";
                 "    cd $workingDir";
                 "}";
                 "";
                 ""]);
    Action true AEnd false;
    Text (lines ["";
                 "";
                 "# End Script command";
                 ""]) ].

(** The contents of the shellrc file. *)
Definition render (d : shellrcData) : string := exec d shellrcTmpl false [].

(** *** The sections of the rendered file *)

(** The user's original shellrc between its markers; nothing when there is
    none. *)
Definition originalInitBlock (d : shellrcData) : string :=
  if emptyb (OriginalInit d) then EmptyString
  else "# Begin " +:+ OriginalInitPath d +:+ nl +:+ nl
       +:+ OriginalInit d +:+ nl +:+ nl
       +:+ "# End " +:+ OriginalInitPath d +:+ nl +:+ nl.

(** The post-init hook: the profile bin path in front of PATH, the history
    file when one is given, and the prompt. *)
Definition postInitBlock (d : shellrcData) : string :=
  lines ["# Begin Devbox Post-init Hook"; ""; "PATH=" +:+ dq]
  +:+ PathPrepend d +:+ ":$PATH" +:+ dq
  +:+ (if emptyb (HistoryFile d) then EmptyString
       else nl +:+ "HISTFILE=" +:+ HistoryFile d)
  +:+ lines [""; "";
             "# Prepend to the prompt to make it clear we're in a devbox shell.";
             "export PS1=" +:+ dq +:+ "(devbox) $PS1" +:+ dq;
             "";
             "# End Devbox Post-init Hook"].

(** The user hook, run from the directory of devbox.json. *)
Definition userHookText (d : shellrcData) : string :=
  lines [""; "";
         "# Begin Devbox User Hook";
         "";
         "# Switch to the directory where devbox.json config is";
         "workingDir=$(pwd)";
         "cd "]
  +:+ ConfigDir d +:+ nl +:+ nl
  +:+ UserHook d
  +:+ lines [""; ""; "cd $workingDir"; ""; "# End Devbox User Hook"].

Definition userHookBlock (d : shellrcData) : string :=
  if emptyb (UserHook d) then EmptyString else userHookText d.

(** The markers of the plan init hook, and the hook between them when the
    plan has one. *)
Definition planInitHookBlock (d : shellrcData) : string :=
  lines [""; ""; "# Begin Plan Init Hook"]
  +:+ (if emptyb (PlanInitHook d) then EmptyString else nl +:+ nl +:+ PlanInitHook d)
  +:+ lines [""; ""; "# End Plan Init Hook"].

(** The shell function around the script command of the plan. *)
Definition runScriptFunction (d : shellrcData) : string :=
  lines [""; "";
         "function run_script {";
         "    workingDir=$(pwd)";
         "    cd "]
  +:+ ConfigDir d +:+ nl +:+ nl
  +:+ "    " +:+ ScriptCommand d
  +:+ lines [""; ""; "    cd $workingDir"; "}"].

Definition scriptBlock (d : shellrcData) : string :=
  lines [""; ""; "# Begin Script command"]
  +:+ (if emptyb (ScriptCommand d) then EmptyString else runScriptFunction d)
  +:+ lines [""; ""; "# End Script command"; ""].

(** [sub] occurs in [s]. *)
Definition contains (s sub : string) : Prop :=
  exists pre post, s = pre +:+ sub +:+ post.

(** A context with both hooks, and the context of a project without any. *)
Definition demoData : shellrcData :=
  {| OriginalInit := "alias ll=ls"; OriginalInitPath := "~/.bashrc";
     PathPrepend := "/proj/.devbox/nix/profile/default/bin";
     HistoryFile := "/proj/.devbox/shell_history";
     UserHook := "echo hello"; ConfigDir := "/proj";
     PlanInitHook := ""; ScriptCommand := "npm start" |}.

Definition bareData : shellrcData :=
  {| OriginalInit := ""; OriginalInitPath := "";
     PathPrepend := "/proj/.devbox/nix/profile/default/bin";
     HistoryFile := ""; UserHook := ""; ConfigDir := "/proj";
     PlanInitHook := ""; ScriptCommand := "" |}.

End nix.

(** ** Package [mutagen] *)

Module mutagen.

Record SessionSpec : Type := {
  AlphaAddress : string;
  AlphaPath : string;
  BetaAddress : string;
  BetaPath : string;
  Name : string;
  Labels : gmap string string;
  Paused : bool;
  SyncMode : string;
  IgnoreVCS : bool
}.

Definition Validate (s : SessionSpec) : option error :=
  if String.eqb (AlphaPath s) "" then Some (ErrNew "alpha path is required")
  else if String.eqb (BetaPath s) "" then Some (ErrNew "beta path is required")
  else None.

Definition demoSpec : SessionSpec :=
  {| AlphaAddress := ""; AlphaPath := "/src"; BetaAddress := "host";
     BetaPath := ""; Name := "sync"; Labels := ∅; Paused := false;
     SyncMode := "two-way-resolved"; IgnoreVCS := true |}.

(** *** Installing the tool *)

(** The paths of this package are the strings the caller passes. *)
Inductive event : Type :=
| EvMkdirAll (dir : string)
| EvDownload (tmpDir url : string)
| EvOpen (file : string)
| EvUntar (installDir : string).

(** The files of the machine and the effects so far. *)
Record State : Type := {
  files : gmap string string;
  trace : list event
}.

Definition addEvent (e : event) (s : State) : State :=
  {| files := files s; trace := trace s ++ [e] |}.

(** What the installer calls outside the sources. *)
Class Host : Type := {
  (** [IsFile] is declared outside the sources: whether a file is at the path. *)
  IsFile : gmap string string -> string -> bool;
  (** [runtime.GOOS], [runtime.GOARCH] and [os.TempDir]. *)
  GOOS : string;
  GOARCH : string;
  TempDir : string;
  (** [filepath.Dir], here on any string. *)
  Dir : string -> string;
  (** [os.MkdirAll]; [grab.Get], which returns the name and the contents of
      the downloaded file; [os.Open]; and [Untar] of a tarball into a
      directory, which returns the files it extracts, by path. *)
  mkdirAllErr : string -> option string;
  grabGet : string -> string -> string + (string * string);
  openErr : string -> option string;
  untar : string -> string -> string + list (string * string)
}.

Section Install.
Context `{host : Host}.

Definition detectOS : string := GOOS.
Definition detectArch : string := GOARCH.
Definition detectPlatform : string := detectOS +:+ "_" +:+ detectArch.

Definition mutagenURL : string :=
  let repo := "mutagen-io/mutagen" in
  let pkg := "mutagen" in
  let version := "v0.16.1" in
  let platform := detectPlatform in
  "https://github.com/" +:+ repo +:+ "/releases/download/" +:+ version +:+ "/"
  +:+ pkg +:+ "_" +:+ platform +:+ "_" +:+ version +:+ ".tar.gz".

Definition Install (url : string) (installDir : string) (s : State)
    : option error * State :=
  let s1 := addEvent (EvMkdirAll installDir) s in
  match mkdirAllErr installDir with
  | Some msg => (Some (ErrExternal msg), s1)
  | None =>
      let s2 := addEvent (EvDownload TempDir url) s1 in
      match grabGet TempDir url with
      | inl msg => (Some (ErrExternal msg), s2)
      | inr (tarPath, tarball) =>
          let s3 := addEvent (EvOpen tarPath)
                      {| files := <[tarPath := tarball]> (files s2); trace := trace s2 |} in
          match openErr tarPath with
          | Some msg => (Some (ErrExternal msg), s3)
          | None =>
              let s4 := addEvent (EvUntar installDir) s3 in
              match untar tarball installDir with
              | inl msg => (Some (ErrExternal msg), s4)
              | inr extracted =>
                  (None,
                   {| files := foldl (fun m e => <[e.1 := e.2]> m) (files s4) extracted;
                      trace := trace s4 |})
              end
          end
      end
  end.

Definition InstallMutagenOnce (binPath : string) (s : State) : option error * State :=
  if IsFile (files s) binPath then
    (* Already installed, do nothing *)
    (None, s)
  else
    let url := mutagenURL in
    let installDir := Dir binPath in
    Install url installDir s.

End Install.

Definition demoIsFile (fs : gmap string string) (p : string) : bool :=
  bool_decide (is_Some (fs !! p)).

Definition demoInstalled : State :=
  {| files := {[ "/home/u/.config/devbox/mutagen/bin/mutagen" := "ELF" ]};
     trace := [] |}.

Definition demoBinPath : string := "/home/u/.config/devbox/mutagen/bin/mutagen".

(** A host without network on which the tool is already installed. *)
Definition demoHost : Host :=
  {| IsFile := demoIsFile;
     GOOS := "linux"; GOARCH := "amd64"; TempDir := "/tmp";
     Dir := fun _ => "/home/u/.config/devbox/mutagen/bin";
     mkdirAllErr := fun _ => None;
     grabGet := fun _ _ => inl "offline";
     openErr := fun _ => None;
     untar := fun _ _ => inr [] |}.

End mutagen.

(** ** Package [devbox]: the operations that launch a process *)

Module devbox_run.

Import filepath devbox.

(** [nix.Shell], declared outside the sources: the field the method [Shell]
    assigns and the fields it does not see. *)
Record nixShell (Hidden : Type) : Type := {
  hidden : Hidden;
  UserInitHook : string
}.
Arguments hidden {Hidden} _.
Arguments UserInitHook {Hidden} _.

(** [docker.BuildFlags], declared outside the sources: the two fields [Build]
    fills and the fields it does not see. *)
Record BuildFlags (Rest : Type) : Type := {
  Name : string;
  DockerfilePath : path;
  otherFlags : Rest
}.
Arguments Name {Rest} _.
Arguments DockerfilePath {Rest} _.
Arguments otherFlags {Rest} _.

(** What these operations call outside the sources. *)
Class Launchers : Type := {
  (** [nix.Exec]. *)
  nixExec : path -> list string -> option string;
  (** The unexported part of [nix.Shell] and its zero value; [nix.DetectShell]
      with the profile and the history file it is given; [Shell.Run]. *)
  ShellHidden : Type;
  zeroHidden : ShellHidden;
  DetectShell : path -> path -> string + nixShell ShellHidden;
  runShell : nixShell ShellHidden -> path -> option string;
  (** The other fields of [docker.BuildFlags] and their zero value;
      [docker.Build]. *)
  FlagsRest : Type;
  zeroRest : FlagsRest;
  dockerBuild : path -> list (BuildFlags FlagsRest) -> option string
}.

Section Run.
Context `{world : Collaborators} `{launchers : Launchers}.

(** The process an operation hands over to, with what it is given. *)
Inductive launch : Type :=
| LaunchExec (nixFile : path) (cmds : list string)
| LaunchShell (sh : nixShell ShellHidden) (nixFile : path)
| LaunchDockerBuild (dir : path) (opts : list (BuildFlags FlagsRest)).

(** A method that ends in such a call: the steps before it, then the call
    with the receiver as the steps left it. *)
Definition thenLaunch {A : Type} (m : M A) (k : A -> Devbox -> option error * launch)
    (s : State) : result unit * State * list launch :=
  match m s with
  | (inl e, s') => (inl e, s', [])
  | (inr a, s') =>
      let out := k a (box s') in
      (match fst out with Some e => inl e | None => inr tt end, s', [snd out])
  end.

Definition external (o : option string) : option error :=
  match o with Some msg => Some (ErrExternal msg) | None => None end.




(** Build creates a Docker image containing a shell with the devbox
    environment. *)
Definition Build (flags : BuildFlags FlagsRest)
    : State -> result unit * State * list launch :=
  thenLaunch
    (d <- getBox ;;
     let defaultFlags :=
       {| Name := Name flags;
          DockerfilePath := Join (srcDir d) [".devbox"; "gen"; "Dockerfile"];
          otherFlags := zeroRest |} in
     let opts := [defaultFlags] ++ [flags] in
     generateBuildFiles ;;;
     ret opts)
    (fun opts d => (external (dockerBuild (srcDir d) opts), LaunchDockerBuild (srcDir d) opts)).

End Run.

Section Outcomes.
Context `{world : Collaborators}.

(** What rendering the shell files returns and writes for a receiver. *)
Definition shellOutputs (b : Devbox) : option error * list (string * string) :=
  generator.outputs (srcDir b) (planOf (cfg b)) (srcDir b) shellTemplates.

(** The state once [generateShellFiles] has returned: the files it wrote, the
    plan dump, the call of [generate] and the closing line on stdout. *)
Definition shellFilesGenerated (s : State) : State :=
  {| box := box s;
     files := generator.applyWrites (snd (shellOutputs (box s))) (files s);
     trace := trace s ++
              [ EvStdoutPlan (planOf (cfg (box s)));
                EvGenerate (srcDir (box s)) (planOf (cfg (box s))) shellFiles;
                EvStdout ("Done generating!" +:+ nl) ] |}.

Definition installingLine (mode : installMode) : string :=
  match mode with uninstall => "Uninstalling" | install => "Installing" end
  +:+ " nix packages. This may take a while...".

(** The state once [saveCfg] has written the config. *)
Definition configSaved (s : State) : State :=
  {| box := box s;
     files := <[to_string (Join (srcDir (box s)) [configFilename])
                := marshal (cfg (box s))]> (files s);
     trace := trace s ++
              [EvWriteConfig (Join (srcDir (box s)) [configFilename]) (cfg (box s))] |}.

(** The values of DEVBOX_SHELL_ENABLED that enable the devbox shell. *)
Definition enabledValues : list string := ["1"; "t"; "T"; "TRUE"; "true"; "True"].

(** The second line of the update message. *)
Definition hashHint : string :=
  " Run `hash -r` to ensure your shell is updated." +:+ nl.

Definition installedVerb (mode : installMode) : string :=
  match mode with uninstall => "removed" | install => "installed" end.

(** What rendering the build files returns and writes for a plan. *)
Definition buildOutputs (b : Devbox) (p : plansdk.Plan)
    : option error * list (string * string) :=
  generator.outputs (srcDir b) p (srcDir b) buildTemplates.

(** The line a warning of the plan is printed as, if it has one. *)
Definition warningEvents (p : plansdk.Plan) : list event :=
  match planWarning p with
  | Some w => [EvStdout ("[WARNING]: " +:+ w +:+ nl)]
  | None => []
  end.

End Outcomes.

(** The events that are output on stdout only. *)
Definition isStdout (e : event) : bool :=
  match e with
  | EvStdout _ | EvStdoutError _ | EvStdoutPlan _ => true
  | _ => false
  end.

(** A trace without what is printed on stdout. *)
Definition effects (E : list event) : list event :=
  List.filter (fun e => negb (isStdout e)) E.

(** The events of generating files and of printing. *)
Definition isGenerateOrStdout (e : event) : Prop :=
  match e with
  | EvGenerate _ _ _ | EvStdout _ | EvStdoutError _ | EvStdoutPlan _ => True
  | _ => False
  end.

(** The computation only appends events that satisfy [P]. *)
Definition emitsOnly (P : event -> Prop) {A : Type} (m : M A) : Prop :=
  forall s, exists E, trace (snd (m s)) = trace s ++ E /\ Forall P E.

(** *** Concrete environments with one failing collaborator *)

(** The concrete environment of [demoWorld] with another write of the config,
    other shell templates and another run of nix-env. *)
Definition demoWith (write : path -> option string)
    (templates : list (generator.template path))
    (runCmd : list string -> runResult) : Collaborators :=
  {| PkgExists := demoPkgExists;
     marshal := demoMarshal;
     writeFileErr := write;
     shellTemplates := templates;
     buildTemplates := demoBuildTemplates;
     GetBuildPlan := demoGetBuildPlan;
     hardConflict := demoNoConflict;
     planInvalid := demoPlanInvalid;
     planWarning := demoPlanWarning;
     mkdirAllErr := demoMkdirAllErr;
     run := runCmd;
     Getenv := demoGetenv;
     Abs := demoAbs;
     FileExists := demoFileExists;
     ReadConfig := demoReadConfig;
     relToWd := demoRelToWd |}.

(** A disk that refuses the write of the config. *)
Definition brokenDiskWorld : Collaborators :=
  demoWith (fun _ => Some "read-only file system") demoShellTemplates demoRun.

(** A second shell template that fails to render. *)
Definition brokenTemplates : list (generator.template path) :=
  demoShellTemplates ++
  [ {| generator.tmplName := "development.nix.tmpl";
       generator.tmplOut := [".devbox"; "gen"; "development.nix"];
       generator.tmplRender := fun _ _ => inl "unexpected EOF" |} ].

Definition brokenTemplateWorld : Collaborators :=
  demoWith demoWriteFileErr brokenTemplates demoRun.

(** A nix-env that exits with status 1. *)
Definition brokenNixWorld : Collaborators :=
  demoWith demoWriteFileErr demoShellTemplates (fun _ => RunExit 1 "").


(** Launchers that succeed; the unexported part of a shell is the path of
    the shell found, that of the build flags a list of tags. *)
Definition demoLaunchers : Launchers :=
  {| nixExec := fun _ _ => None;
     ShellHidden := string;
     zeroHidden := "";
     DetectShell := fun _ _ => inr {| hidden := "/bin/zsh"; UserInitHook := "" |};
     runShell := fun _ _ => None;
     FlagsRest := list string;
     zeroRest := [];
     dockerBuild := fun _ _ => None |}.

End devbox_run.

(** ** Package [nix]: reading the rendered shellrc *)

Module nix_layout.

Import nix.

(** [s] begins with [p]; [s] ends with [p]. *)
Definition startsWith (s p : string) : Prop := exists rest, s = p +:+ rest.
Definition endsWith (s p : string) : Prop := exists front, s = front +:+ p.

(** The data with another config directory, and with another path of the
    original shellrc. *)
Definition withConfigDir (d : shellrcData) (dir : string) : shellrcData :=
  {| OriginalInit := OriginalInit d; OriginalInitPath := OriginalInitPath d;
     PathPrepend := PathPrepend d; HistoryFile := HistoryFile d;
     UserHook := UserHook d; ConfigDir := dir;
     PlanInitHook := PlanInitHook d; ScriptCommand := ScriptCommand d |}.

Definition withOriginalInitPath (d : shellrcData) (p : string) : shellrcData :=
  {| OriginalInit := OriginalInit d; OriginalInitPath := p;
     PathPrepend := PathPrepend d; HistoryFile := HistoryFile d;
     UserHook := UserHook d; ConfigDir := ConfigDir d;
     PlanInitHook := PlanInitHook d; ScriptCommand := ScriptCommand d |}.

End nix_layout.

(** ** Package [mutagen]: a host on which the installation succeeds *)

Module mutagen_hosts.

Import mutagen.

Definition onlineHost : Host :=
  {| IsFile := demoIsFile;
     GOOS := "darwin"; GOARCH := "arm64"; TempDir := "/tmp";
     Dir := fun _ => "/opt/mutagen/bin";
     mkdirAllErr := fun _ => None;
     grabGet := fun tmp _ => inr (tmp +:+ "/mutagen.tar.gz", "TAR");
     openErr := fun _ => None;
     untar := fun _ dir => inr [(dir +:+ "/mutagen", "ELF")] |}.

Definition emptyMachine : State := {| files := ∅; trace := [] |}.

End mutagen_hosts.

(** * Part II: the properties *)

(** ** The artifact generator *)

Module generator_facts.

Import generator.

Lemma applyWrites_app W1 W2 fs :
  applyWrites (W1 ++ W2) fs = applyWrites W2 (applyWrites W1 fs).
Proof. unfold applyWrites. apply foldl_app. Qed.

Lemma applyWrites_lookup W fs k :
  applyWrites W fs !! k = match lastWrite k W with Some v => Some v | None => fs !! k end.
Proof.
  induction W as [|[k' v] W IH] using rev_ind; [done|].
  unfold lastWrite. rewrite applyWrites_app, foldl_app. simpl.
  destruct (decide (k' = k)) as [->|Hne].
  - apply lookup_insert_eq.
  - rewrite lookup_insert_ne by done. apply IH.
Qed.

(** Writing the same texts a second time changes nothing. *)
Lemma applyWrites_idem W fs : applyWrites W (applyWrites W fs) = applyWrites W fs.
Proof.
  apply map_eq. intros k. rewrite !applyWrites_lookup.
  by destruct (lastWrite k W).
Qed.

Lemma generate_outputs {Ctx : Type} dir plan (ctx : Ctx) ts fs :
  generate dir plan ctx ts fs
  = (fst (outputs dir plan ctx ts), applyWrites (snd (outputs dir plan ctx ts)) fs).
Proof.
  revert fs. induction ts as [|t ts IH]; intros fs; simpl; [done|].
  destruct (tmplRender t plan ctx) as [cause|text]; [done|].
  by rewrite IH.
Qed.

End generator_facts.

(** ** Package [plansdk] *)

Module plansdk_facts.

Import plansdk.

Section Merge.
Variable hardConflict : Plan -> Plan -> option string.

(** C5. Merge override law.  When the merge reports no hard conflict it
    returns a plan, and for each of the three stages: if the user plan
    declares the stage (its command sequence is not empty) the merged stage is
    the user's stage, whatever the inferred plan holds there; otherwise the
    merged stage is the inferred stage as it is. *)
Theorem MergeUserPlan_override (U I : Plan) :
  hardConflict U I = None ->
  exists M,
    MergeUserPlan hardConflict U I = inr M /\
    (absent (InstallStage U) = false -> InstallStage M = InstallStage U) /\
    (absent (BuildStage U) = false -> BuildStage M = BuildStage U) /\
    (absent (StartStage U) = false -> StartStage M = StartStage U) /\
    (absent (InstallStage U) = true -> InstallStage M = InstallStage I) /\
    (absent (BuildStage U) = true -> BuildStage M = BuildStage I) /\
    (absent (StartStage U) = true -> StartStage M = StartStage I).
Proof.
  intros Hno. unfold MergeUserPlan. rewrite Hno. eexists. split; [reflexivity|].
  unfold mergeStage. simpl.
  repeat split; intros H; by rewrite H.
Qed.

(** The merged stage does not depend on the inferred stage once the user
    declares one. *)
Lemma mergeStage_user_wins (user inferred inferred' : Stage) :
  absent user = false -> mergeStage user inferred = mergeStage user inferred'.
Proof. intros H. unfold mergeStage. by rewrite H. Qed.

End Merge.

Lemma MergeUserPlan_override_witness :
  exists M,
    MergeUserPlan (fun _ _ => None) demoUserPlan demoInferredPlan = inr M /\
    BuildStage M = {| Command := ["make"] |} /\
    InstallStage M = {| Command := ["npm install"] |}.
Proof.
  destruct (MergeUserPlan_override (fun _ _ => None) demoUserPlan demoInferredPlan
              eq_refl) as (M & HM & _ & Hbuild & _ & Hinstall & _).
  exists M. split; [exact HM|]. split; [by apply Hbuild | by apply Hinstall].
Defined.

End plansdk_facts.

(** ** Package [devbox] *)

Module devbox_facts.

Import filepath devbox.

Section Methods.
Context `{world : Collaborators}.

(** *** The footprint of a method *)

Lemma footprint_bind {A B : Type} (m : M A) (k : A -> M B) b a b1 W1 E1 r b2 W2 E2 :
  footprint m b (inr a) b1 W1 E1 ->
  footprint (k a) b1 r b2 W2 E2 ->
  footprint (bind m k) b r b2 (W1 ++ W2) (E1 ++ E2).
Proof.
  intros Hm Hk fs tr. unfold bind. rewrite Hm, Hk.
  by rewrite generator_facts.applyWrites_app, (assoc_L (++)).
Qed.

Lemma footprint_bind_err {A B : Type} (m : M A) (k : A -> M B) b e b1 W1 E1 :
  footprint m b (inl e) b1 W1 E1 ->
  footprint (bind m k) b (inl e) b1 W1 E1.
Proof. intros Hm fs tr. unfold bind. by rewrite Hm. Qed.

Lemma footprint_ret {A : Type} (a : A) b : footprint (ret a) b (inr a) b [] [].
Proof. intros fs tr. unfold ret. simpl. by rewrite (right_id_L [] (++)). Qed.

Lemma footprint_fail {A : Type} (e : error) b : footprint (@fail A e) b (inl e) b [] [].
Proof. intros fs tr. unfold fail. simpl. by rewrite (right_id_L [] (++)). Qed.

Lemma footprint_getBox b : footprint getBox b (inr b) b [] [].
Proof. intros fs tr. unfold getBox. simpl. by rewrite (right_id_L [] (++)). Qed.

Lemma footprint_emit e b : footprint (emit e) b (inr tt) b [] [e].
Proof. by intros fs tr. Qed.

Lemma footprint_setCfg c b :
  footprint (modify (setCfg c)) b (inr tt) {| cfg := c; srcDir := srcDir b |} [] [].
Proof. intros fs tr. unfold modify, setCfg. simpl. by rewrite (right_id_L [] (++)). Qed.

Lemma footprint_write k v b :
  footprint (modify (fun s => setFiles (<[k := v]> (files s)) s)) b (inr tt) b [(k, v)] [].
Proof. intros fs tr. unfold modify, setFiles. simpl. by rewrite (right_id_L [] (++)). Qed.

Lemma footprint_generate {Ctx : Type} dir plan (ctx : Ctx) ts b :
  footprint (onFiles (generator.generate dir plan ctx ts)) b
    (match fst (generator.outputs dir plan ctx ts) with Some e => inl e | None => inr tt end)
    b (snd (generator.outputs dir plan ctx ts)) [].
Proof.
  intros fs tr. unfold onFiles, setFiles. simpl.
  rewrite generator_facts.generate_outputs. simpl. by rewrite (right_id_L [] (++)).
Qed.

Lemma footprint_attempt (m : M unit) b r b' W E :
  footprint m b r b' W E ->
  footprint (attempt m) b
    (inr match r with inl e => Some e | inr _ => None end) b' W E.
Proof. intros Hm fs tr. unfold attempt. rewrite Hm. by destruct r. Qed.

Lemma steady_bind {A B : Type} (m : M A) (k : A -> M B) :
  steady m -> (forall a, steady (k a)) -> steady (bind m k).
Proof.
  intros Hm Hk b. destruct (Hm b) as (r & W & E & H).
  destruct r as [e|a].
  - exists (inl e), W, E. by apply footprint_bind_err.
  - destruct (Hk a b) as (r2 & W2 & E2 & H2).
    exists r2, (W ++ W2), (E ++ E2). by eapply footprint_bind.
Qed.

Lemma steady_ret {A : Type} (a : A) : steady (ret a).
Proof. intros b. eexists _, _, _. apply footprint_ret. Qed.

Lemma steady_fail {A : Type} (e : error) : steady (@fail A e).
Proof. intros b. eexists _, _, _. apply footprint_fail. Qed.

Lemma steady_getBox : steady getBox.
Proof. intros b. eexists _, _, _. apply footprint_getBox. Qed.

Lemma steady_emit e : steady (emit e).
Proof. intros b. eexists _, _, _. apply footprint_emit. Qed.

Lemma steady_write k v : steady (modify (fun s => setFiles (<[k := v]> (files s)) s)).
Proof. intros b. eexists _, _, _. apply footprint_write. Qed.

Lemma steady_onFiles {Ctx : Type} dir plan (ctx : Ctx) ts :
  steady (onFiles (generator.generate dir plan ctx ts)).
Proof. intros b. eexists _, _, _. apply footprint_generate. Qed.

Lemma steady_attempt (m : M unit) : steady m -> steady (attempt m).
Proof.
  intros Hm b. destruct (Hm b) as (r & W & E & H).
  eexists _, _, _. by apply footprint_attempt.
Qed.

Lemma steady_check o : steady (check o).
Proof. destruct o; [apply steady_fail | apply steady_ret]. Qed.

Lemma steady_lift {A : Type} (r : result A) : steady (lift r).
Proof. destruct r; [apply steady_fail | apply steady_ret]. Qed.

(** Decompose a method along its binds and case distinctions. *)
Ltac steady_step :=
  first
    [ apply steady_bind; [| intros ?]
    | apply steady_ret | apply steady_fail | apply steady_getBox
    | apply steady_emit | apply steady_write | apply steady_onFiles
    | apply steady_check | apply steady_lift
    | apply steady_attempt
    | match goal with
      | |- steady (match ?x with _ => _ end) => destruct x
      end ].
Ltac steady_tac := repeat steady_step.

Lemma steady_saveCfg : steady saveCfg.
Proof. unfold saveCfg. steady_tac. Qed.

Lemma steady_convertToPlan : steady convertToPlan.
Proof. unfold convertToPlan. steady_tac. Qed.

Lemma steady_BuildPlan : steady BuildPlan.
Proof. unfold BuildPlan. steady_tac. Qed.

Lemma steady_generate plan set : steady (generate plan set).
Proof. unfold generate. steady_tac. Qed.

Lemma steady_generateShellFiles : steady generateShellFiles.
Proof.
  unfold generateShellFiles, ShellPlan.
  steady_tac.
Qed.

Lemma steady_generateBuildFiles : steady generateBuildFiles.
Proof.
  unfold generateBuildFiles.
  steady_tac.
Qed.

Lemma steady_Generate : steady Generate.
Proof.
  unfold Generate. steady_tac.
Qed.

Lemma steady_applyDevNixDerivation : steady applyDevNixDerivation.
Proof. unfold applyDevNixDerivation, Devbox_profileDir. steady_tac. Qed.


Lemma steady_printPackageUpdateMessage mode pkgs :
  steady (printPackageUpdateMessage mode pkgs).
Proof. unfold printPackageUpdateMessage. steady_tac. Qed.

Lemma steady_persistAndInstall mode pkgs : steady (persistAndInstall mode pkgs).
Proof.
  unfold persistAndInstall. steady_tac. apply steady_printPackageUpdateMessage.
Qed.

Lemma steady_box {A : Type} (m : M A) s : steady m -> box (snd (m s)) = box s.
Proof.
  intros Hm. destruct s as [b fs tr].
  destruct (Hm b) as (r & W & E & H). by rewrite H.
Qed.

(** *** The two loops of [Add] *)

Lemma Contains_elem_of (s : list string) (v : string) :
  slices.Contains s v = true <-> v ∈ s.
Proof.
  induction s as [|x s IH]; simpl.
  - split; [done | by intros ?%elem_of_nil].
  - destruct (String.eqb_spec v x) as [->|Hne].
    + split; [intros _; left | done].
    + rewrite IH, elem_of_cons. split; [by right | by intros [?|?]].
Qed.

Lemma Contains_false (s : list string) (v : string) :
  slices.Contains s v = false <-> v ∉ s.
Proof.
  rewrite <- Contains_elem_of. by destruct (slices.Contains s v).
Qed.

Lemma validate_None pkgs :
  validate pkgs = None <-> Forall (fun pkg => PkgExists pkg = true) pkgs.
Proof.
  induction pkgs as [|pkg pkgs IH]; simpl.
  - split; [constructor | done].
  - rewrite Forall_cons. destruct (PkgExists pkg).
    + rewrite IH. split; [by split | by intros [_ ?]].
    + split; [done | by intros [? _]].
Qed.

Lemma validate_Some pkgs e :
  validate pkgs = Some e ->
  exists pkg, pkg ∈ pkgs /\ PkgExists pkg = false /\ e = ErrPackageNotFound pkg.
Proof.
  induction pkgs as [|pkg pkgs IH]; simpl; [done|].
  destruct (PkgExists pkg) eqn:Hpkg.
  - intros (p & Hin & Hp)%IH. exists p. split; [by right | done].
  - intros [= <-]. exists pkg. split; [left | done].
Qed.

Lemma addMissing_present P pkgs :
  Forall (fun pkg => pkg ∈ P) pkgs -> addMissing P pkgs = P.
Proof.
  induction 1 as [|pkg pkgs Hin _ IH]; simpl; [done|].
  apply Contains_elem_of in Hin. by rewrite Hin.
Qed.

Lemma addMissing_incl P pkgs x : x ∈ P -> x ∈ addMissing P pkgs.
Proof.
  revert P. induction pkgs as [|pkg pkgs IH]; intros P Hx; simpl; [done|].
  destruct (slices.Contains P pkg); apply IH; [done|].
  apply elem_of_app. by left.
Qed.

Lemma addMissing_adds P pkgs :
  Forall (fun pkg => pkg ∈ addMissing P pkgs) pkgs.
Proof.
  revert P. induction pkgs as [|pkg pkgs IH]; intros P; simpl; constructor.
  - destruct (slices.Contains P pkg) eqn:Hc; apply addMissing_incl.
    + by apply Contains_elem_of.
    + apply elem_of_app. right. left.
  - destruct (slices.Contains P pkg); apply IH.
Qed.

Lemma addMissing_idem P pkgs :
  addMissing (addMissing P pkgs) pkgs = addMissing P pkgs.
Proof. apply addMissing_present, addMissing_adds. Qed.

Lemma addMissing_NoDup P pkgs : NoDup P -> NoDup (addMissing P pkgs).
Proof.
  revert P. induction pkgs as [|pkg pkgs IH]; intros P HP; simpl; [done|].
  destruct (slices.Contains P pkg) eqn:Hc; apply IH; [done|].
  apply Contains_false in Hc.
  apply NoDup_app. split; [done|]. split; [|apply NoDup_singleton].
  intros x Hx ->%list_elem_of_singleton. done.
Qed.

Lemma Exclude_absent P pkgs :
  Forall (fun pkg => pkg ∉ P) pkgs -> pkgslice.Exclude P pkgs = P.
Proof.
  intros Habs. unfold pkgslice.Exclude.
  induction P as [|x P IH]; simpl; [done|].
  assert (slices.Contains pkgs x = false) as ->.
  { apply Contains_false. intros Hx.
    rewrite Forall_forall in Habs. apply (Habs x Hx). left. }
  simpl. f_equal. apply IH.
  eapply Forall_impl; [exact Habs|]. intros y Hy Hin. apply Hy. by right.
Qed.

(** *** Running [Add] and [Remove] *)

Lemma Add_invalid pkgs s e : validate pkgs = Some e -> Add pkgs s = (inl e, s).
Proof. intros H. unfold Add, bind, check. by rewrite H. Qed.

Lemma Add_valid pkgs s :
  validate pkgs = None ->
  Add pkgs s
  = persistAndInstall install pkgs
      (setCfg (withPackages (cfg (box s)) (addMissing (Packages (cfg (box s))) pkgs)) s).
Proof. intros H. unfold Add, bind at 1 2 3, check. by rewrite H. Qed.

Lemma Remove_run pkgs s :
  Remove pkgs s
  = persistAndInstall uninstall pkgs
      (setCfg (withPackages (cfg (box s)) (pkgslice.Exclude (Packages (cfg (box s))) pkgs)) s).
Proof. done. Qed.

Lemma Add_packages pkgs s :
  Packages (cfg (box (snd (Add pkgs s))))
  = match validate pkgs with
    | None => addMissing (Packages (cfg (box s))) pkgs
    | Some _ => Packages (cfg (box s))
    end.
Proof.
  destruct (validate pkgs) as [e|] eqn:Hv.
  - by rewrite (Add_invalid _ _ _ Hv).
  - rewrite (Add_valid _ _ Hv), steady_box by apply steady_persistAndInstall. done.
Qed.

Lemma Remove_packages pkgs s :
  Packages (cfg (box (snd (Remove pkgs s))))
  = pkgslice.Exclude (Packages (cfg (box s))) pkgs.
Proof.
  rewrite Remove_run, steady_box by apply steady_persistAndInstall. done.
Qed.

(** C1. Add is all-or-nothing: when some requested package is unknown to the
    package index, [Add] returns the not-found error of such a package and
    the state after the call is the state before it: the package list of the
    config is as it was, no file was written (the config is not saved) and
    no effect took place.  So a package is appended only when the first
    loop has accepted every requested identifier. *)
Theorem Add_all_or_nothing (pkgs : list string) (s : State) :
  (exists pkg, pkg ∈ pkgs /\ PkgExists pkg = false) ->
  exists pkg,
    pkg ∈ pkgs /\ PkgExists pkg = false /\
    Add pkgs s = (inl (ErrPackageNotFound pkg), s) /\
    Packages (cfg (box (snd (Add pkgs s)))) = Packages (cfg (box s)) /\
    files (snd (Add pkgs s)) = files s /\
    trace (snd (Add pkgs s)) = trace s.
Proof.
  intros (bad & Hin & Hbad).
  destruct (validate pkgs) as [e|] eqn:Hv.
  - destruct (validate_Some _ _ Hv) as (pkg & Hpkg & Hno & ->).
    exists pkg. rewrite (Add_invalid _ _ _ Hv). done.
  - apply validate_None in Hv. rewrite Forall_forall in Hv.
    specialize (Hv bad Hin). congruence.
Qed.

(** When every requested package exists, the package list after [Add] is the
    one the second loop builds, whatever the later steps return. *)
Lemma Add_appends_when_valid (pkgs : list string) (s : State) :
  Forall (fun pkg => PkgExists pkg = true) pkgs ->
  Packages (cfg (box (snd (Add pkgs s)))) = addMissing (Packages (cfg (box s))) pkgs.
Proof. intros Hv%validate_None. by rewrite Add_packages, Hv. Qed.

(** C3. Add is idempotent per package and keeps the package list free of
    duplicates: from a config whose package list has no duplicates, adding a
    package twice in sequence leaves the same package list as adding it once,
    and after any [Add] the package list has no duplicates. *)
Theorem Add_idempotent_NoDup (pkg : string) (s : State) :
  NoDup (Packages (cfg (box s))) ->
  Packages (cfg (box (snd (Add [pkg] (snd (Add [pkg] s))))))
  = Packages (cfg (box (snd (Add [pkg] s))))
  /\ forall pkgs, NoDup (Packages (cfg (box (snd (Add pkgs s))))).
Proof.
  intros Hnd. split.
  - rewrite !Add_packages. destruct (validate [pkg]); [done|].
    apply addMissing_idem.
  - intros pkgs. rewrite Add_packages.
    destruct (validate pkgs); [done|]. by apply addMissing_NoDup.
Qed.

(** Adding any list of packages twice leaves the list of adding it once. *)
Lemma Add_twice (pkgs : list string) (s : State) :
  Packages (cfg (box (snd (Add pkgs (snd (Add pkgs s))))))
  = Packages (cfg (box (snd (Add pkgs s)))).
Proof.
  rewrite !Add_packages. destruct (validate pkgs); [done|]. apply addMissing_idem.
Qed.

(** C9. The user plan built from a config: the development and the runtime
    packages are both the package list of the config, hence the same list,
    and a stage that is nil in the config is the zero stage of the plan, whose
    command sequence is empty (an absent stage); a stage that is set carries
    its commands over. *)
Theorem convertToPlan_packages_and_nil_stages (s : State) :
  fst (convertToPlan s) = inr (planOf (cfg (box s))) /\
  plansdk.DevPackages (planOf (cfg (box s))) = Packages (cfg (box s)) /\
  plansdk.RuntimePackages (planOf (cfg (box s))) = Packages (cfg (box s)) /\
  plansdk.DevPackages (planOf (cfg (box s))) = plansdk.RuntimePackages (planOf (cfg (box s))) /\
  plansdk.InstallStage (planOf (cfg (box s)))
  = match InstallStage (cfg (box s)) with
    | None => plansdk.zeroStage
    | Some st => {| plansdk.Command := Command st |}
    end /\
  plansdk.BuildStage (planOf (cfg (box s)))
  = match BuildStage (cfg (box s)) with
    | None => plansdk.zeroStage
    | Some st => {| plansdk.Command := Command st |}
    end /\
  plansdk.StartStage (planOf (cfg (box s)))
  = match StartStage (cfg (box s)) with
    | None => plansdk.zeroStage
    | Some st => {| plansdk.Command := Command st |}
    end /\
  plansdk.absent plansdk.zeroStage = true.
Proof.
  destruct s as [[c dir] fs tr]. destruct c as [pk [i|] [b|] [st|] hook]; done.
Qed.

(** *** A call in which every collaborator succeeds *)

Lemma printPackageUpdateMessage_run mode pkgs s :
  printPackageUpdateMessage mode pkgs s
  = (inr tt, {| box := box s; files := files s;
                trace := trace s ++ messageEvents mode pkgs |}).
Proof.
  unfold printPackageUpdateMessage, messageEvents. destruct s as [b fs tr].
  destruct ((0 <? length pkgs)%nat && IsDevboxShellEnabled); simpl.
  - unfold bind, emit, modify, addEvent. simpl. by rewrite <- (assoc_L (++)).
  - unfold ret. by rewrite (right_id_L [] (++)).
Qed.

Lemma persistAndInstall_ok mode pkgs s :
  collaboratorsSucceed (box s) ->
  persistAndInstall mode pkgs s
  = (inr tt,
     {| box := box s;
        files := generator.applyWrites
                   (snd (generator.outputs (srcDir (box s)) (planOf (cfg (box s)))
                           (srcDir (box s)) shellTemplates))
                   (<[to_string (Join (srcDir (box s)) [configFilename])
                      := marshal (cfg (box s))]> (files s));
        trace := trace s ++ installEvents mode (box s) ++ messageEvents mode pkgs |}).
Proof.
  intros (Hw & Hg & Hm & Hr). destruct s as [b fs tr]. simpl in *.
  unfold persistAndInstall, bind at 1 2.
  unfold saveCfg, bind, getBox, emit, modify, addEvent, setFiles. simpl.
  rewrite Hw. simpl.
  unfold ensurePackagesAreInstalled, bind at 1. unfold attempt at 1.
  unfold generateShellFiles, ShellPlan, convertToPlan, generate, bind, getBox, emit,
    modify, addEvent, attempt, onFiles, setFiles, ret. simpl.
  rewrite generator_facts.generate_outputs. simpl. rewrite Hg. simpl.
  unfold applyDevNixDerivation, Devbox_profileDir, bind, getBox, emit, modify,
    addEvent, ret. simpl.
  rewrite Hm. simpl. rewrite Hr. simpl.
  rewrite printPackageUpdateMessage_run. simpl.
  unfold installEvents, nixEnvCmd. simpl.
  by rewrite <- !(assoc_L (++)).
Qed.

Lemma withPackages_same (c : Config) : withPackages c (Packages c) = c.
Proof. by destruct c. Qed.

Lemma setCfg_same (s : State) : setCfg (cfg (box s)) s = s.
Proof. by destruct s as [[c dir] fs tr]. Qed.

(** C2, as the code has it.  Let every collaborator succeed.  When all the
    requested packages are already in the config and known to the package
    index, [Add] returns success, leaves the config as it was, still saves it
    and still runs the update message step.  When none of the requested
    packages is in the config, [Remove] returns success, leaves the config as
    it was, still saves it, still runs the update message step, and its
    effects are those of a full installation cycle: the shell files are
    generated again and nix-env is run on the profile. *)
Theorem unchanged_membership_persists_and_reports (pkgs : list string) (s : State) :
  collaboratorsSucceed (box s) ->
  (Forall (fun pkg => pkg ∈ Packages (cfg (box s)) /\ PkgExists pkg = true) pkgs ->
   fst (Add pkgs s) = inr tt /\
   box (snd (Add pkgs s)) = box s /\
   exists E,
     trace (snd (Add pkgs s)) = trace s ++ E ++ messageEvents install pkgs /\
     EvWriteConfig (Join (srcDir (box s)) [configFilename]) (cfg (box s)) ∈ E)
  /\
  (Forall (fun pkg => pkg ∉ Packages (cfg (box s))) pkgs ->
   fst (Remove pkgs s) = inr tt /\
   box (snd (Remove pkgs s)) = box s /\
   trace (snd (Remove pkgs s))
   = trace s ++ installEvents uninstall (box s) ++ messageEvents uninstall pkgs /\
   EvWriteConfig (Join (srcDir (box s)) [configFilename]) (cfg (box s))
     ∈ installEvents uninstall (box s) /\
   EvExec (nixEnvCmd (box s)) ∈ installEvents uninstall (box s)).
Proof.
  intros Hok. split.
  - intros Hall.
    assert (validate pkgs = None) as Hv.
    { apply validate_None. eapply Forall_impl; [exact Hall|]. by intros ? [_ ?]. }
    assert (addMissing (Packages (cfg (box s))) pkgs = Packages (cfg (box s))) as Hsame.
    { apply addMissing_present. eapply Forall_impl; [exact Hall|]. by intros ? [? _]. }
    rewrite (Add_valid _ _ Hv), Hsame, withPackages_same, setCfg_same.
    rewrite (persistAndInstall_ok _ _ _ Hok). simpl.
    split; [done|]. split; [done|].
    exists (installEvents install (box s)). split; [done|]. left.
  - intros Hnone.
    rewrite Remove_run, (Exclude_absent _ _ Hnone), withPackages_same, setCfg_same.
    rewrite (persistAndInstall_ok _ _ _ Hok). simpl.
    split; [done|]. split; [done|]. split; [done|]. split; [left|].
    unfold installEvents. do 6 right. left.
Qed.

(** C7. Generation is idempotent.  A second call of [generate] with the same
    target directory, plan, context and template set returns what the first
    returned and leaves the files as the first left them; and a second
    [Generate] of the same receiver returns what the first returned and leaves
    every file as the first left it. *)
Theorem Generate_idempotent {Ctx : Type} (targetDir : path) (plan : plansdk.Plan)
    (ctx : Ctx) (templateSet : list (generator.template Ctx))
    (fs : generator.filesystem) (s : State) :
  generator.generate targetDir plan ctx templateSet
    (snd (generator.generate targetDir plan ctx templateSet fs))
  = generator.generate targetDir plan ctx templateSet fs
  /\ box (snd (Generate s)) = box s
  /\ fst (Generate (snd (Generate s))) = fst (Generate s)
  /\ files (snd (Generate (snd (Generate s)))) = files (snd (Generate s)).
Proof.
  split.
  - rewrite !generator_facts.generate_outputs. simpl.
    by rewrite generator_facts.applyWrites_idem.
  - destruct s as [b fs0 tr].
    destruct (steady_Generate b) as (r & W & E & H).
    rewrite !H. simpl. rewrite H. simpl.
    by rewrite generator_facts.applyWrites_idem.
Qed.

(** [BuildPlan] merges the plan of the config with the plan of the planner. *)
Lemma BuildPlan_merges (s : State) :
  fst (BuildPlan s)
  = match GetBuildPlan (srcDir (box s)) with
    | inl e => inl e
    | inr inferred => plansdk.MergeUserPlan hardConflict (planOf (cfg (box s))) inferred
    end.
Proof.
  unfold BuildPlan, convertToPlan, bind, getBox, emit, modify, ret, lift. simpl.
  destruct (GetBuildPlan _) as [e|inferred]; simpl; [done|].
  unfold fail. by destruct (plansdk.MergeUserPlan _ _ _).
Qed.

(** *** The walk towards the root *)

Lemma ancestors_root : ancestors root = [root].
Proof. done. Qed.

Lemma ancestors_snoc (p : path) (x : string) :
  ancestors (p ++ [x]) = (p ++ [x]) :: ancestors p.
Proof.
  unfold ancestors. rewrite length_app, Nat.add_1_r.
  rewrite (seq_S (S (length p))), reverse_app, reverse_singleton, fmap_app.
  refine (f_equal2 cons _ _).
  - rewrite take_ge; [done|]. rewrite length_app, Nat.add_1_r. simpl. lia.
  - apply list_fmap_ext. intros i n Hn.
    apply take_app_le.
    apply list_elem_of_lookup_2 in Hn. rewrite elem_of_reverse, elem_of_seq in Hn. lia.
Qed.

(** The chain goes up one directory at a time: from a directory other than the
    root it continues with the chain of the parent. *)
Lemma ancestors_step (cur : path) :
  cur <> root -> ancestors cur = cur :: ancestors (Dir cur).
Proof.
  destruct cur as [|x p _] using rev_ind; [done|]. intros _.
  unfold Dir. rewrite removelast_last. apply ancestors_snoc.
Qed.

Lemma findUp_root :
  findUp [] = if FileExists [configFilename] then Some [] else None.
Proof. by simp findUp. Qed.

(** One turn of the loop: the directory is tested, then its parent is taken. *)
Lemma findUp_snoc (p : path) (x : string) :
  findUp (p ++ [x])
  = if FileExists (Join (p ++ [x]) [configFilename]) then Some (p ++ [x]) else findUp p.
Proof.
  rewrite findUp_equation_1.
  match goal with
  | |- context [findUp_unfold_clause_1 _ ?d] => destruct d as [Heq|Hne]
  end.
  - by destruct p.
  - rewrite findUp_clause_1_equation_2. unfold Dir. by rewrite removelast_last.
Qed.

(** The walk returns the first directory of the chain that holds the file. *)
Lemma findUp_find (cur : path) :
  findUp cur = List.find (fun d => FileExists (Join d [configFilename])) (ancestors cur).
Proof.
  induction cur as [|x p IH] using rev_ind.
  - by rewrite findUp_root.
  - rewrite findUp_snoc, ancestors_snoc. simpl. by rewrite IH.
Qed.

Lemma prefix_snoc_cases (d p : path) (x : string) :
  d `prefix_of` (p ++ [x]) -> d = p ++ [x] \/ d `prefix_of` p.
Proof.
  intros [k Hk]. destruct k as [|y k _] using rev_ind.
  - left. by rewrite (right_id_L [] (++)) in Hk.
  - right. rewrite (assoc_L (++)) in Hk. apply app_inj_tail in Hk as [-> _].
    by exists k.
Qed.

Lemma findUp_spec (cur : path) :
  match findUp cur with
  | Some found =>
      found `prefix_of` cur /\ FileExists (Join found [configFilename]) = true /\
      forall d, d `prefix_of` cur -> FileExists (Join d [configFilename]) = true ->
                d `prefix_of` found
  | None =>
      forall d, d `prefix_of` cur -> FileExists (Join d [configFilename]) = false
  end.
Proof.
  induction cur as [|x p IH] using rev_ind.
  - rewrite findUp_root.
    destruct (FileExists [configFilename]) eqn:Hroot.
    + split; [done|]. split; [done|]. by intros d ->%prefix_nil_inv.
    + by intros d ->%prefix_nil_inv.
  - rewrite findUp_snoc.
    destruct (FileExists (Join (p ++ [x]) [configFilename])) eqn:Hcur.
    + split; [done|]. split; [done|]. done.
    + destruct (findUp p) as [found|].
      * destruct IH as (Hpre & Hfile & Hdeep).
        split; [by apply prefix_app_r|]. split; [done|].
        intros d [->|Hd]%prefix_snoc_cases Hd'; [congruence | by apply Hdeep].
      * intros d [->|Hd]%prefix_snoc_cases; [done | by apply IH].
Qed.

(** The chain of the walk is the set of the directory and its ancestors. *)
Lemma elem_of_ancestors (cur d : path) : d ∈ ancestors cur <-> d `prefix_of` cur.
Proof.
  induction cur as [|x p IH] using rev_ind.
  - change (ancestors []) with [root]. rewrite list_elem_of_singleton. split.
    + by intros ->.
    + apply prefix_nil_inv.
  - rewrite ancestors_snoc, elem_of_cons, IH. split.
    + intros [->|Hd]; [done | by apply prefix_app_r].
    + apply prefix_snoc_cases.
Qed.

Lemma ancestors_ends (cur : path) :
  head (ancestors cur) = Some cur /\ last (ancestors cur) = Some root.
Proof.
  induction cur as [|x p [_ IH]] using rev_ind; [done|].
  rewrite ancestors_snoc. split; [done|].
  destruct (ancestors p) eqn:Hp; [done|]. by rewrite last_cons, IH.
Qed.

Lemma Open_missing (dir shown : string) :
  Open dir = inl (ErrMissingDevboxJSON shown)
  <-> findConfigDir dir = inl (ErrMissingDevboxJSON shown).
Proof.
  unfold Open. destruct (findConfigDir dir) as [e|cfgDir].
  - split; congruence.
  - destruct (ReadConfig _); split; congruence.
Qed.

(** C4. Let [cur] be the absolute form of the starting directory.  Opening
    fails with the missing devbox.json error exactly when neither [cur] nor
    any of its ancestors, the root included, holds a devbox.json file.  The
    lookup returns the first directory, on the chain from [cur] upwards one
    parent at a time and ending with the root, that holds the file: the
    deepest such directory. *)
Theorem findConfigDir_walks_to_root (dir : string) (cur : path) :
  Abs dir = inr cur ->
  ((exists shown, Open dir = inl (ErrMissingDevboxJSON shown))
   <-> forall d, d `prefix_of` cur -> FileExists (Join d [configFilename]) = false)
  /\ (findConfigDir dir = inl (missingDevboxJSONError dir)
      <-> forall d, d `prefix_of` cur -> FileExists (Join d [configFilename]) = false)
  /\ (forall found,
        findConfigDir dir = inr found
        <-> found `prefix_of` cur /\ FileExists (Join found [configFilename]) = true /\
            forall d, d `prefix_of` cur -> FileExists (Join d [configFilename]) = true ->
                      d `prefix_of` found)
  /\ findConfigDir dir
     = match List.find (fun d => FileExists (Join d [configFilename])) (ancestors cur) with
       | Some found => inr found
       | None => inl (missingDevboxJSONError dir)
       end
  /\ (forall d, d ∈ ancestors cur <-> d `prefix_of` cur)
  /\ head (ancestors cur) = Some cur
  /\ last (ancestors cur) = Some root.
Proof.
  intros Habs.
  assert (findConfigDir dir
          = match findUp cur with
            | Some found => inr found
            | None => inl (missingDevboxJSONError dir)
            end) as Hfind.
  { unfold findConfigDir. by rewrite Habs. }
  pose proof (findUp_spec cur) as Hspec.
  assert (findConfigDir dir = inl (missingDevboxJSONError dir)
          <-> forall d, d `prefix_of` cur -> FileExists (Join d [configFilename]) = false)
    as Hmissing.
  { rewrite Hfind. destruct (findUp cur) as [found|].
    - destruct Hspec as (Hpre & Hfile & _). split; [done|].
      intros Hnone. specialize (Hnone found Hpre). congruence.
    - done. }
  split; [|split; [exact Hmissing|split; [|split; [|split; [|apply ancestors_ends]]]]].
  - rewrite <- Hmissing. split.
    + intros [shown Hopen%Open_missing]. rewrite Hfind in Hopen |- *.
      by destruct (findUp cur).
    + intros Hnf. eexists. apply Open_missing. exact Hnf.
  - intros found. rewrite Hfind. destruct (findUp cur) as [found0|].
    + destruct Hspec as (Hpre & Hfile & Hdeep). split.
      * by intros [= <-].
      * intros (Hpre' & Hfile' & Hdeep'). f_equal.
        apply prefix_length_eq; [by apply Hdeep'|].
        apply prefix_length. by apply Hdeep.
    + split; [done|]. intros (Hpre & Hfile & _).
      specialize (Hspec found Hpre). congruence.
  - by rewrite Hfind, findUp_find.
  - intros d. apply elem_of_ancestors.
Qed.

End Methods.

(** *** Concrete runs *)

Lemma demo_collaboratorsSucceed :
  collaboratorsSucceed (world := demoWorld)
    (box demoState).
Proof. by repeat split. Qed.

(** Adding git and an unknown package adds neither and touches nothing. *)
Lemma Add_all_or_nothing_witness :
  (exists pkg, pkg ∈ ["git"; "nope"] /\ demoPkgExists pkg = false) /\
  exists pkg,
    pkg ∈ ["git"; "nope"] /\ demoPkgExists pkg = false /\
    Add (world := demoWorld) ["git"; "nope"] demoState
    = (inl (ErrPackageNotFound pkg), demoState) /\
    Packages (cfg (box (snd (Add (world := demoWorld) ["git"; "nope"] demoState))))
    = ["git"] /\
    files (snd (Add (world := demoWorld) ["git"; "nope"] demoState)) = ∅ /\
    trace (snd (Add (world := demoWorld) ["git"; "nope"] demoState)) = [].
Proof.
  assert (exists pkg, pkg ∈ ["git"; "nope"] /\ demoPkgExists pkg = false) as Hbad.
  { exists "nope". split; [right; left | reflexivity]. }
  split; [exact Hbad|].
  exact (Add_all_or_nothing (world := demoWorld) ["git"; "nope"] demoState Hbad).
Defined.

Example Add_git_and_unknown :
  Add (world := demoWorld) ["git"; "nope"] demoState
  = (inl (ErrPackageNotFound "nope"), demoState).
Proof. reflexivity. Qed.

(** Adding go twice to the config that holds git. *)
Lemma Add_idempotent_NoDup_witness :
  NoDup (Packages (cfg (box demoState))) /\
  Packages (cfg (box (snd (Add (world := demoWorld) ["go"]
    (snd (Add (world := demoWorld) ["go"] demoState))))))
  = Packages (cfg (box (snd (Add (world := demoWorld) ["go"]
      demoState)))).
Proof.
  assert (NoDup (Packages (cfg (box demoState)))) as Hnd by apply NoDup_singleton.
  split; [exact Hnd|].
  exact (proj1 (Add_idempotent_NoDup (world := demoWorld) "go" demoState Hnd)).
Defined.

Example Add_go_twice :
  Packages (cfg (box (snd (Add (world := demoWorld) ["go"]
    (snd (Add (world := demoWorld) ["go"] demoState))))))
  = ["git"; "go"].
Proof. vm_compute. reflexivity. Qed.

(** The scenario of the spec: removing a package that is not in the config
    holding git.  The call succeeds and the package list is unchanged, yet the
    trace shows nix-env being run on the profile. *)
Lemma Remove_absent_runs_nix_env :
  fst (Remove (world := demoWorld) ["nonexistent"] demoState) = inr tt /\
  Packages (cfg (box (snd (Remove (world := demoWorld) ["nonexistent"] demoState))))
  = ["git"] /\
  List.filter (fun e => match e with EvExec _ => true | _ => false end)
    (trace (snd (Remove (world := demoWorld) ["nonexistent"] demoState)))
  = [EvExec ["nix-env"; "--profile"; "/home/proj/.devbox/nix/profile/default";
             "--install"; "-f"; "/home/proj/.devbox/gen/development.nix"]].
Proof. vm_compute. repeat split. Qed.

(** Adding git, already present, and removing a package that is absent. *)
Lemma unchanged_membership_witness :
  (fst (Add (world := demoWorld) ["git"] demoState)
   = inr tt /\
   box (snd (Add (world := demoWorld) ["git"] demoState))
   = box demoState) /\
  (fst (Remove (world := demoWorld) ["nonexistent"] demoState) = inr tt /\
   box (snd (Remove (world := demoWorld) ["nonexistent"] demoState))
   = box demoState /\
   EvExec (nixEnvCmd (box demoState)) ∈ installEvents uninstall (box demoState)).
Proof.
  assert (Forall (fun pkg => pkg ∈ Packages (cfg (box demoState))
                             /\ demoPkgExists pkg = true) ["git"]) as Hpresent.
  { constructor; [split; [left | reflexivity] | constructor]. }
  assert (Forall (fun pkg => pkg ∉ Packages (cfg (box demoState))) ["nonexistent"])
    as Habsent.
  { constructor; [|constructor]. by intros [=]%list_elem_of_singleton. }
  split.
  - destruct (proj1 (unchanged_membership_persists_and_reports (world := demoWorld) ["git"] demoState
        demo_collaboratorsSucceed) Hpresent) as (Hres & Hbox & _).
    by split.
  - destruct (proj2 (unchanged_membership_persists_and_reports (world := demoWorld) ["nonexistent"] demoState
        demo_collaboratorsSucceed) Habsent) as (Hres & Hbox & _ & _ & Hexec).
    by repeat split.
Defined.

(** Opening from /home/proj/sub finds the config in /home/proj. *)
Lemma findConfigDir_walks_to_root_witness :
  Abs (Collaborators := demoWorld) "sub" = inr ["home"; "proj"; "sub"] /\
  findConfigDir (world := demoWorld) "sub" = inr ["home"; "proj"].
Proof.
  split; [reflexivity|].
  destruct (findConfigDir_walks_to_root (world := demoWorld) "sub" ["home"; "proj"; "sub"] eq_refl)
    as (_ & _ & _ & Hfind & _).
  rewrite Hfind. reflexivity.
Defined.

Example Open_from_root_fails :
  Open (world := bareWorld) "."
  = inl (ErrMissingDevboxJSON "this directory").
Proof. reflexivity. Qed.

(** A package that is in the config but unknown to the package index: [Add]
    stops at the index check. *)
Example Add_present_but_unknown_fails :
  Add (world := demoWorld) ["hg"]
    {| box := {| cfg := withPackages demoConfig ["git"; "hg"]; srcDir := ["home"; "proj"] |};
       files := ∅; trace := [] |}
  = (inl (ErrPackageNotFound "hg"),
     {| box := {| cfg := withPackages demoConfig ["git"; "hg"]; srcDir := ["home"; "proj"] |};
        files := ∅; trace := [] |}).
Proof. reflexivity. Qed.

(** Adding go to the config that holds git: the effects of the call, and the
    files it leaves. *)
Example Add_go_run :
  let r := Add (world := demoWorld) ["go"] demoState in
  fst r = inr tt /\
  Packages (cfg (box (snd r))) = ["git"; "go"] /\
  files (snd r) !! "/home/proj/devbox.json" = Some "git,go" /\
  files (snd r) !! "/home/proj/.devbox/gen/shell.nix" = Some "git go" /\
  List.filter (fun e => match e with EvExec _ | EvWriter _ => true | _ => false end)
    (trace (snd r))
  = [ EvExec ["nix-env"; "--profile"; "/home/proj/.devbox/nix/profile/default";
              "--install"; "-f"; "/home/proj/.devbox/gen/development.nix"];
      EvWriter "go is now installed.";
      EvWriter (" Run `hash -r` to ensure your shell is updated." +:+ nl) ].
Proof. vm_compute. repeat split. Qed.

End devbox_facts.

(** ** Package [nix]: the shellrc template *)

Module nix_facts.

Import nix.

Lemma append_assoc (a b c : string) : (a +:+ b) +:+ c = a +:+ (b +:+ c).
Proof.
  induction a as [|x a IH]; [done|]. exact (f_equal (String x) IH).
Qed.

Lemma emptyb_true (s : string) : emptyb s = true <-> s = EmptyString.
Proof. by destruct s. Qed.

(** The template renders to its five sections, one after the other. *)
Lemma render_sections (d : shellrcData) :
  render d
  = originalInitBlock d +:+ postInitBlock d +:+ userHookBlock d
    +:+ planInitHookBlock d +:+ scriptBlock d.
Proof.
  destruct d as [oi oip pp hf uh cd pih sc].
  unfold render, originalInitBlock, postInitBlock, userHookBlock, userHookText,
    planInitHookBlock, scriptBlock, runScriptFunction.
  cbn [exec shellrcTmpl fieldValue live forallb id tail
       OriginalInit OriginalInitPath PathPrepend HistoryFile UserHook ConfigDir
       PlanInitHook ScriptCommand].
  unfold truth.
  destruct (emptyb oi), (emptyb hf), (emptyb uh), (emptyb pih), (emptyb sc);
    cbn [negb andb]; rewrite ?append_assoc; vm_compute; reflexivity.
Qed.

Lemma emptyb_false (s : string) : emptyb s = false <-> s <> EmptyString.
Proof. by destruct s. Qed.

(** C6. For every context the rendered shellrc contains the post-init hook
    section, which puts the path to prepend in front of PATH and changes the
    prompt.  It contains the user hook section when the user hook is not
    empty, and is the other sections alone when it is empty; it contains the
    run_script function when the script command of the plan is not empty,
    and only the two markers of that section when it is empty.  The user
    hook section and the function both save the working directory, change to
    the config directory, run the command and change back. *)
Theorem shellrc_sections (d : shellrcData) :
  render d
  = originalInitBlock d +:+ postInitBlock d +:+ userHookBlock d
    +:+ planInitHookBlock d +:+ scriptBlock d
  /\ contains (render d) (postInitBlock d)
  /\ contains (postInitBlock d) ("PATH=" +:+ dq +:+ PathPrepend d +:+ ":$PATH" +:+ dq)
  /\ contains (postInitBlock d) ("export PS1=" +:+ dq +:+ "(devbox) $PS1" +:+ dq)
  /\ (UserHook d <> EmptyString -> contains (render d) (userHookText d))
  /\ (UserHook d = EmptyString ->
      render d
      = originalInitBlock d +:+ postInitBlock d +:+ planInitHookBlock d +:+ scriptBlock d)
  /\ (ScriptCommand d <> EmptyString -> contains (render d) (runScriptFunction d))
  /\ (ScriptCommand d = EmptyString ->
      render d
      = originalInitBlock d +:+ postInitBlock d +:+ userHookBlock d
        +:+ planInitHookBlock d
        +:+ lines [""; ""; "# Begin Script command"]
        +:+ lines [""; ""; "# End Script command"; ""])
  /\ contains (userHookText d)
       (lines ["workingDir=$(pwd)"; "cd " +:+ ConfigDir d; ""; UserHook d; "";
               "cd $workingDir"])
  /\ contains (runScriptFunction d)
       (lines ["    workingDir=$(pwd)"; "    cd " +:+ ConfigDir d; "";
               "    " +:+ ScriptCommand d; ""; "    cd $workingDir"]).
Proof.
  pose proof (render_sections d) as Hr.
  split; [exact Hr|]. repeat apply conj.
  - exists (originalInitBlock d),
      (userHookBlock d +:+ planInitHookBlock d +:+ scriptBlock d).
    exact Hr.
  - exists (lines ["# Begin Devbox Post-init Hook"; ""; ""]).
    eexists. unfold postInitBlock. rewrite ?append_assoc. reflexivity.
  - exists (lines ["# Begin Devbox Post-init Hook"; ""; "PATH=" +:+ dq]
            +:+ PathPrepend d +:+ ":$PATH" +:+ dq
            +:+ (if emptyb (HistoryFile d) then EmptyString
                 else nl +:+ "HISTFILE=" +:+ HistoryFile d)
            +:+ lines [""; "";
                       "# Prepend to the prompt to make it clear we're in a devbox shell.";
                       ""]),
      (lines [""; ""; "# End Devbox Post-init Hook"]).
    unfold postInitBlock. rewrite ?append_assoc. reflexivity.
  - intros Hne%emptyb_false.
    exists (originalInitBlock d +:+ postInitBlock d),
      (planInitHookBlock d +:+ scriptBlock d).
    rewrite Hr, append_assoc. unfold userHookBlock. by rewrite Hne.
  - intros He%emptyb_true. rewrite Hr. unfold userHookBlock. by rewrite He.
  - intros Hne%emptyb_false.
    exists (originalInitBlock d +:+ postInitBlock d +:+ userHookBlock d
            +:+ planInitHookBlock d +:+ lines [""; ""; "# Begin Script command"]),
      (lines [""; ""; "# End Script command"; ""]).
    rewrite Hr, !append_assoc. unfold scriptBlock. by rewrite Hne.
  - intros He%emptyb_true. rewrite Hr. unfold scriptBlock. by rewrite He.
  - exists (lines [""; ""; "# Begin Devbox User Hook"; "";
                   "# Switch to the directory where devbox.json config is"; ""]),
      (lines [""; ""; "# End Devbox User Hook"]).
    unfold userHookText, lines. cbn [gostrings.Join].
    rewrite ?append_assoc. reflexivity.
  - exists (lines [""; ""; "function run_script {"; ""]), (lines [""; "}"]).
    unfold runScriptFunction, lines. cbn [gostrings.Join].
    rewrite ?append_assoc. reflexivity.
Qed.

Lemma shellrc_sections_witness :
  contains (render demoData) (userHookText demoData) /\
  contains (render demoData) (runScriptFunction demoData) /\
  render bareData
  = postInitBlock bareData
    +:+ lines [""; ""; "# Begin Plan Init Hook"; ""; "# End Plan Init Hook"; "";
               "# Begin Script command"; ""; "# End Script command"; ""].
Proof.
  destruct (shellrc_sections demoData) as (_ & _ & _ & _ & Hu & _ & Hs & _).
  destruct (shellrc_sections bareData) as (_ & _ & _ & _ & _ & _ & _ & Hn & _).
  split; [by apply Hu|]. split; [by apply Hs|].
  rewrite Hn by reflexivity. reflexivity.
Defined.

End nix_facts.

(** ** Package [mutagen] *)

Module mutagen_facts.

Import mutagen.

(** C8. Validation of a session spec fails exactly when a required path is
    empty: [Validate] returns an error if and only if the alpha path or the
    beta path is the empty string, it returns nil otherwise, and the result
    depends on no other field. *)
Theorem Validate_fails_iff_path_empty (s : SessionSpec) :
  ((exists e, Validate s = Some e) <-> AlphaPath s = "" \/ BetaPath s = "")
  /\ (Validate s = None <-> AlphaPath s <> "" /\ BetaPath s <> "")
  /\ (forall s', AlphaPath s' = AlphaPath s -> BetaPath s' = BetaPath s ->
                 Validate s' = Validate s).
Proof.
  unfold Validate. split; [|split].
  - destruct (String.eqb_spec (AlphaPath s) "") as [Ha|Ha];
      [split; [by left | by eexists]|].
    destruct (String.eqb_spec (BetaPath s) "") as [Hb|Hb];
      [split; [by right | by eexists]|].
    split; [by intros [e ?] | by intros [?|?]].
  - destruct (String.eqb_spec (AlphaPath s) "") as [Ha|Ha];
      [split; [done | by intros [? _]]|].
    destruct (String.eqb_spec (BetaPath s) "") as [Hb|Hb];
      [split; [done | by intros [_ ?]]|].
    done.
  - intros s' Ha Hb. unfold Validate. by rewrite Ha, Hb.
Qed.

Lemma Validate_fails_iff_path_empty_witness :
  (AlphaPath demoSpec = "" \/ BetaPath demoSpec = "") /\
  exists e, Validate demoSpec = Some e.
Proof.
  assert (AlphaPath demoSpec = "" \/ BetaPath demoSpec = "") as Hempty by (by right).
  split; [exact Hempty|].
  exact (proj2 (proj1 (Validate_fails_iff_path_empty demoSpec)) Hempty).
Defined.

Example Validate_demoSpec :
  Validate demoSpec = Some (ErrNew "beta path is required").
Proof. reflexivity. Qed.

Section Install.
Context `{host : Host}.

(** C10. When a file is already at [binPath], [InstallMutagenOnce] returns nil
    and the machine is as before: no directory is created, nothing is
    downloaded and nothing is written. *)
Theorem InstallMutagenOnce_noop_when_installed (binPath : string) (s : State) :
  IsFile (files s) binPath = true ->
  InstallMutagenOnce binPath s = (None, s)
  /\ files (snd (InstallMutagenOnce binPath s)) = files s
  /\ trace (snd (InstallMutagenOnce binPath s)) = trace s.
Proof. intros H. unfold InstallMutagenOnce. by rewrite H. Qed.

(** Without the file the installation starts: the first effect is the
    creation of the install directory. *)
Lemma InstallMutagenOnce_installs_when_missing (binPath : string) (s : State) :
  IsFile (files s) binPath = false ->
  exists rest,
    trace (snd (InstallMutagenOnce binPath s))
    = trace s ++ EvMkdirAll (Dir binPath) :: rest.
Proof.
  intros H. unfold InstallMutagenOnce, Install. rewrite H.
  destruct (mkdirAllErr _); [by exists []|].
  destruct (grabGet _ _) as [msg|[tarPath tarball]]; simpl.
  { eexists. by rewrite <- (assoc_L (++)). }
  destruct (openErr _); simpl.
  { eexists. by rewrite <- !(assoc_L (++)). }
  destruct (untar _ _); simpl; eexists; by rewrite <- !(assoc_L (++)).
Qed.

End Install.

Lemma InstallMutagenOnce_noop_witness :
  IsFile (Host := demoHost) (files demoInstalled) demoBinPath = true /\
  InstallMutagenOnce (host := demoHost)
    demoBinPath demoInstalled
  = (None, demoInstalled).
Proof.
  assert (IsFile (Host := demoHost) (files demoInstalled) demoBinPath = true) as Hfile
    by (vm_compute; reflexivity).
  split; [exact Hfile|].
  exact (proj1 (InstallMutagenOnce_noop_when_installed (host := demoHost) demoBinPath demoInstalled Hfile)).
Defined.

Example mutagenURL_linux :
  mutagenURL (host := demoHost)
  = "https://github.com/mutagen-io/mutagen/releases/download/v0.16.1/mutagen_linux_amd64_v0.16.1.tar.gz".
Proof. reflexivity. Qed.

(** On the same host without the file the installation starts and stops at
    the download. *)
Example InstallMutagenOnce_offline :
  InstallMutagenOnce (host := demoHost) demoBinPath {| files := ∅; trace := [] |}
  = (Some (ErrExternal "offline"),
     {| files := ∅;
        trace := [ EvMkdirAll "/home/u/.config/devbox/mutagen/bin";
                   EvDownload "/tmp"
                     "https://github.com/mutagen-io/mutagen/releases/download/v0.16.1/mutagen_linux_amd64_v0.16.1.tar.gz" ] |}).
Proof. reflexivity. Qed.

End mutagen_facts.

(** ** Package [devbox]: further properties *)

Module devbox_more.

Import filepath devbox devbox_facts devbox_run.

Section Methods.
Context `{world : Collaborators}.

(** *** The package list after [Add] *)

Lemma addMissing_prefix P pkgs : P `prefix_of` addMissing P pkgs.
Proof.
  revert P. induction pkgs as [|pkg pkgs IH]; intros P; simpl; [done|].
  destruct (slices.Contains P pkg); [apply IH|].
  etrans; [|apply IH]. by apply prefix_app_r.
Qed.

Lemma addMissing_elem P pkgs x : x ∈ addMissing P pkgs -> x ∈ P \/ x ∈ pkgs.
Proof.
  revert P. induction pkgs as [|pkg pkgs IH]; intros P; simpl; [by left|].
  destruct (slices.Contains P pkg).
  - intros [?|?]%IH; [by left | right; by right].
  - intros Hx%IH. destruct Hx as [Hx|Hx]; [|right; by right].
    apply elem_of_app in Hx as [Hx|Hx]; [by left|].
    apply list_elem_of_singleton in Hx as ->. right. left.
Qed.

(** X1. When every requested package is known to the index, [Add] keeps the
    packages the config had, in their order, at the front of the list; every
    requested package is in the list afterwards; and the list holds nothing
    but former and requested packages. *)
Theorem Add_extends_the_list (pkgs : list string) (s : State) :
  Forall (fun pkg => PkgExists pkg = true) pkgs ->
  Packages (cfg (box s)) `prefix_of` Packages (cfg (box (snd (Add pkgs s))))
  /\ Forall (fun pkg => pkg ∈ Packages (cfg (box (snd (Add pkgs s))))) pkgs
  /\ (forall x, x ∈ Packages (cfg (box (snd (Add pkgs s)))) ->
                x ∈ Packages (cfg (box s)) \/ x ∈ pkgs).
Proof.
  intros Hv%validate_None. rewrite Add_packages, Hv.
  split; [apply addMissing_prefix|]. split; [apply addMissing_adds|].
  intros x. apply addMissing_elem.
Qed.

(** *** A failing write of the config *)

Lemma persistAndInstall_save_fails mode pkgs s msg :
  writeFileErr (Join (srcDir (box s)) [configFilename]) = Some msg ->
  persistAndInstall mode pkgs s
  = (inl (ErrExternal msg),
     addEvent (EvWriteConfig (Join (srcDir (box s)) [configFilename]) (cfg (box s))) s).
Proof.
  intros Hw. destruct s as [b fs tr]. simpl in *.
  unfold persistAndInstall, bind at 1.
  unfold saveCfg, bind, getBox, emit, modify, addEvent. simpl.
  by rewrite Hw.
Qed.

(** X2. When the config cannot be written, [Add] and [Remove] return the
    error of the write and stop: no file is generated and nix-env is not run
    (the only effect is the attempted write).  The package list of the
    receiver has been changed all the same: to the extended list by [Add], to
    what [pkgslice.Exclude] returned by [Remove]. *)
Theorem save_failure_stops_but_keeps_the_change (pkgs : list string) (s : State)
    (msg : string) :
  writeFileErr (Join (srcDir (box s)) [configFilename]) = Some msg ->
  Forall (fun pkg => PkgExists pkg = true) pkgs ->
  Add pkgs s
  = (inl (ErrExternal msg),
     {| box := {| cfg := withPackages (cfg (box s))
                           (addMissing (Packages (cfg (box s))) pkgs);
                  srcDir := srcDir (box s) |};
        files := files s;
        trace := trace s ++
                 [EvWriteConfig (Join (srcDir (box s)) [configFilename])
                    (withPackages (cfg (box s))
                       (addMissing (Packages (cfg (box s))) pkgs))] |})
  /\ Remove pkgs s
  = (inl (ErrExternal msg),
     {| box := {| cfg := withPackages (cfg (box s))
                           (pkgslice.Exclude (Packages (cfg (box s))) pkgs);
                  srcDir := srcDir (box s) |};
        files := files s;
        trace := trace s ++
                 [EvWriteConfig (Join (srcDir (box s)) [configFilename])
                    (withPackages (cfg (box s))
                       (pkgslice.Exclude (Packages (cfg (box s))) pkgs))] |}).
Proof.
  intros Hw Hv%validate_None. split.
  - rewrite (Add_valid _ _ Hv).
    by rewrite (persistAndInstall_save_fails _ _ _ msg) by exact Hw.
  - rewrite Remove_run.
    by rewrite (persistAndInstall_save_fails _ _ _ msg) by exact Hw.
Qed.

(** *** The installation cycle, outcome by outcome *)

Lemma generateShellFiles_run (s : State) :
  generateShellFiles s
  = (match fst (shellOutputs (box s)) with Some e => inl e | None => inr tt end,
     shellFilesGenerated s).
Proof.
  destruct s as [b fs tr].
  unfold generateShellFiles, ShellPlan, convertToPlan, generate, bind, getBox, emit,
    modify, addEvent, attempt, onFiles, setFiles, ret, shellFilesGenerated,
    shellOutputs. simpl.
  rewrite generator_facts.generate_outputs. simpl.
  destruct (fst (generator.outputs _ _ _ _)); simpl;
    unfold check, fail, ret; by rewrite <- !(assoc_L (++)).
Qed.

Lemma applyDevNixDerivation_run (s : State) :
  applyDevNixDerivation s
  = match mkdirAllErr (Dir (Join (srcDir (box s)) profileDir)) with
    | Some msg =>
        (inl (ErrExternal msg),
         addEvent (EvMkdirAll (Dir (Join (srcDir (box s)) profileDir))) s)
    | None =>
        (match run (nixEnvCmd (box s)) with
         | RunOk => inr tt
         | RunExit code stderr => inl (ErrRunExit (nixEnvCmd (box s)) code stderr)
         | RunFailed cause => inl (ErrRun (nixEnvCmd (box s)) cause)
         end,
         addEvent (EvExec (nixEnvCmd (box s)))
           (addEvent (EvMkdirAll (Dir (Join (srcDir (box s)) profileDir))) s))
    end.
Proof.
  destruct s as [b fs tr].
  unfold applyDevNixDerivation, Devbox_profileDir, bind, getBox, emit, modify,
    addEvent, ret, nixEnvCmd. simpl.
  destruct (mkdirAllErr _); [done|]. simpl.
  by destruct (run _).
Qed.

Lemma ensurePackagesAreInstalled_run (mode : installMode) (s : State) :
  ensurePackagesAreInstalled mode s
  = match fst (shellOutputs (box s)) with
    | Some e => (inl e, addEvent (EvStdoutError e) (shellFilesGenerated s))
    | None =>
        let s1 := addEvent (EvStdout (installingLine mode)) (shellFilesGenerated s) in
        match applyDevNixDerivation s1 with
        | (inl e, s2) => (inl (ErrWrap e "apply Nix derivation"), addEvent (EvStdout nl) s2)
        | (inr _, s2) => (inr tt, addEvent (EvStdout ("done." +:+ nl)) s2)
        end
    end.
Proof.
  unfold ensurePackagesAreInstalled, bind at 1, attempt at 1.
  rewrite generateShellFiles_run.
  destruct (fst (shellOutputs (box s))) as [e|]; [done|].
  unfold bind at 1, emit at 1, modify at 1. cbv zeta.
  change (match mode with uninstall => "Uninstalling" | install => "Installing" end
          +:+ " nix packages. This may take a while...") with (installingLine mode).
  unfold bind at 1, attempt at 1.
  destruct (applyDevNixDerivation _) as [[e|[]] s2]; done.
Qed.

(** X3. The mode of [ensurePackagesAreInstalled] only changes what is printed:
    with [uninstall] the call returns what it returns with [install], leaves
    the same files and has the same effects apart from stdout, among them the
    same nix-env command line. *)
Theorem ensurePackagesAreInstalled_mode_only_prints (s : State) :
  fst (ensurePackagesAreInstalled uninstall s) = fst (ensurePackagesAreInstalled install s)
  /\ box (snd (ensurePackagesAreInstalled uninstall s))
     = box (snd (ensurePackagesAreInstalled install s))
  /\ files (snd (ensurePackagesAreInstalled uninstall s))
     = files (snd (ensurePackagesAreInstalled install s))
  /\ effects (trace (snd (ensurePackagesAreInstalled uninstall s)))
     = effects (trace (snd (ensurePackagesAreInstalled install s))).
Proof.
  rewrite !ensurePackagesAreInstalled_run.
  destruct (fst (shellOutputs (box s))) as [e|]; [done|]. cbv zeta.
  rewrite !applyDevNixDerivation_run. simpl.
  destruct (mkdirAllErr _); simpl.
  - unfold effects. rewrite <- !(assoc_L (++)), !List.filter_app. done.
  - destruct (run _); simpl; unfold effects;
      rewrite <- !(assoc_L (++)), !List.filter_app; done.
Qed.

(** X4. When rendering the shell files fails, [ensurePackagesAreInstalled]
    returns the error of the template as it is, after printing the closing
    line of the generation and the error; the profile directory is not
    created and nix-env is not run.  The files are as the generation left
    them. *)
Theorem ensurePackagesAreInstalled_generation_failure (mode : installMode)
    (s : State) (e : error) :
  fst (shellOutputs (box s)) = Some e ->
  ensurePackagesAreInstalled mode s
  = (inl e,
     {| box := box s;
        files := generator.applyWrites (snd (shellOutputs (box s))) (files s);
        trace := trace s ++
                 [ EvStdoutPlan (planOf (cfg (box s)));
                   EvGenerate (srcDir (box s)) (planOf (cfg (box s))) shellFiles;
                   EvStdout ("Done generating!" +:+ nl);
                   EvStdoutError e ] |}).
Proof.
  intros He. rewrite ensurePackagesAreInstalled_run, He.
  unfold addEvent, shellFilesGenerated. simpl. by rewrite <- !(assoc_L (++)).
Qed.

Lemma persistAndInstall_run mode pkgs s :
  persistAndInstall mode pkgs s
  = match writeFileErr (Join (srcDir (box s)) [configFilename]) with
    | Some msg =>
        (inl (ErrExternal msg),
         addEvent (EvWriteConfig (Join (srcDir (box s)) [configFilename]) (cfg (box s))) s)
    | None =>
        match ensurePackagesAreInstalled mode (configSaved s) with
        | (inl e, s2) => (inl e, s2)
        | (inr _, s2) => printPackageUpdateMessage mode pkgs s2
        end
    end.
Proof.
  destruct (writeFileErr _) as [msg|] eqn:Hw.
  { by apply persistAndInstall_save_fails. }
  destruct s as [b fs tr]. simpl in *.
  unfold persistAndInstall, bind at 1.
  unfold saveCfg at 1, bind at 1, getBox at 1. simpl.
  unfold bind at 1, emit at 1, modify at 1, addEvent at 1. simpl.
  rewrite Hw. unfold modify at 1, setFiles at 1. simpl.
  unfold bind at 1. unfold configSaved. simpl.
  by destruct (ensurePackagesAreInstalled _ _) as [[e|[]] s2].
Qed.

(** X5. [Add] is not undone when nix-env fails.  With known packages, a
    successful write of the config and successful rendering, an exit status
    of nix-env makes [Add] return that failure wrapped as the apply step;
    the receiver holds the extended package list, and the effects of the call
    are the write of the extended config, the generation, the creation of the
    profile directory and the command.  No update message is written. *)
Theorem Add_keeps_the_config_when_nix_env_fails (pkgs : list string) (s : State)
    (code : Z) (stderr : string) :
  Forall (fun pkg => PkgExists pkg = true) pkgs ->
  writeFileErr (Join (srcDir (box s)) [configFilename]) = None ->
  (forall plan, fst (generator.outputs (srcDir (box s)) plan (srcDir (box s))
                       shellTemplates) = None) ->
  mkdirAllErr (Dir (Join (srcDir (box s)) profileDir)) = None ->
  run (nixEnvCmd (box s)) = RunExit code stderr ->
  let c := withPackages (cfg (box s)) (addMissing (Packages (cfg (box s))) pkgs) in
  fst (Add pkgs s)
  = inl (ErrWrap (ErrRunExit (nixEnvCmd (box s)) code stderr) "apply Nix derivation")
  /\ cfg (box (snd (Add pkgs s))) = c
  /\ effects (trace (snd (Add pkgs s)))
     = effects (trace s) ++
       [ EvWriteConfig (Join (srcDir (box s)) [configFilename]) c;
         EvGenerate (srcDir (box s)) (planOf c) shellFiles;
         EvMkdirAll (Dir (Join (srcDir (box s)) profileDir));
         EvExec (nixEnvCmd (box s)) ].
Proof.
  intros Hv%validate_None Hw Hg Hm Hr c.
  rewrite (Add_valid _ _ Hv). fold c.
  destruct s as [[c0 dir] fs tr]. simpl in *.
  rewrite persistAndInstall_run. simpl. rewrite Hw.
  rewrite ensurePackagesAreInstalled_run. unfold shellOutputs. simpl.
  rewrite Hg. cbv zeta. rewrite applyDevNixDerivation_run. simpl.
  rewrite Hm. unfold nixEnvCmd in *. simpl in *. rewrite Hr. simpl.
  split; [done|]. split; [done|].
  unfold effects. rewrite <- !(assoc_L (++)), !List.filter_app. done.
Qed.

(** *** The update message *)

Lemma IsDevboxShellEnabled_true :
  IsDevboxShellEnabled = true <-> Getenv "DEVBOX_SHELL_ENABLED" ∈ enabledValues.
Proof.
  unfold IsDevboxShellEnabled, strconv.ParseBool, enabledValues.
  destruct (bool_decide_reflect
              (Getenv "DEVBOX_SHELL_ENABLED" ∈ ["1"; "t"; "T"; "TRUE"; "true"; "True"]))
    as [Hin|Hout]; [done|].
  destruct (bool_decide _); split; done.
Qed.

(** X6. [printPackageUpdateMessage] never fails and touches neither the
    receiver nor the files.  It writes nothing when no package is named or
    when DEVBOX_SHELL_ENABLED is not one of 1, t, T, TRUE, true, True (unset
    included); otherwise it writes two texts to the writer: the sentence
    naming the one package, or all the packages joined by commas, and the
    hash -r hint. *)
Theorem update_message_written_iff (mode : installMode) (pkgs : list string)
    (s : State) :
  fst (printPackageUpdateMessage mode pkgs s) = inr tt
  /\ box (snd (printPackageUpdateMessage mode pkgs s)) = box s
  /\ files (snd (printPackageUpdateMessage mode pkgs s)) = files s
  /\ (pkgs = [] \/ Getenv "DEVBOX_SHELL_ENABLED" ∉ enabledValues ->
      trace (snd (printPackageUpdateMessage mode pkgs s)) = trace s)
  /\ (forall pkg,
        pkgs = [pkg] -> Getenv "DEVBOX_SHELL_ENABLED" ∈ enabledValues ->
        trace (snd (printPackageUpdateMessage mode pkgs s))
        = trace s ++ [ EvWriter (pkg +:+ " is now " +:+ installedVerb mode +:+ ".");
                       EvWriter hashHint ])
  /\ (2 <= length pkgs -> Getenv "DEVBOX_SHELL_ENABLED" ∈ enabledValues ->
      trace (snd (printPackageUpdateMessage mode pkgs s))
      = trace s ++ [ EvWriter (gostrings.Join pkgs ", " +:+ " are now "
                               +:+ installedVerb mode +:+ ".");
                     EvWriter hashHint ]).
Proof.
  rewrite printPackageUpdateMessage_run. simpl.
  split; [done|]. split; [done|]. split; [done|].
  unfold messageEvents. split; [|split].
  - intros [->|Hout]; simpl; [by rewrite (right_id_L [] (++))|].
    assert (IsDevboxShellEnabled = false) as ->.
    { destruct IsDevboxShellEnabled eqn:He; [|done].
      by apply IsDevboxShellEnabled_true in He. }
    by rewrite andb_false_r, (right_id_L [] (++)).
  - intros pkg -> Hin%IsDevboxShellEnabled_true. rewrite Hin. simpl.
    by destruct mode.
  - intros Hlen Hin%IsDevboxShellEnabled_true. rewrite Hin.
    destruct pkgs as [|p1 [|p2 rest]]; simpl in *; [lia | lia |].
    by destruct mode.
Qed.

(** *** What [Generate] does and does not do *)

Lemma emitsOnly_bind P {A B : Type} (m : M A) (k : A -> M B) :
  emitsOnly P m -> (forall a, emitsOnly P (k a)) -> emitsOnly P (bind m k).
Proof.
  intros Hm Hk s. unfold bind. destruct (Hm s) as (E1 & H1 & HP1).
  destruct (m s) as [[e|a] s1]; simpl in *; [by exists E1|].
  destruct (Hk a s1) as (E2 & H2 & HP2). exists (E1 ++ E2).
  rewrite H2, H1, (assoc_L (++)). split; [done|]. by apply Forall_app.
Qed.

Lemma emitsOnly_nothing P {A : Type} (m : M A) :
  (forall s, trace (snd (m s)) = trace s) -> emitsOnly P m.
Proof.
  intros H s. exists []. rewrite H, (right_id_L [] (++)). by split.
Qed.

Lemma emitsOnly_emit (P : event -> Prop) e : P e -> emitsOnly P (emit e).
Proof. intros He s. exists [e]. split; [done|]. by constructor. Qed.

Lemma emitsOnly_attempt P (m : M unit) : emitsOnly P m -> emitsOnly P (attempt m).
Proof.
  intros Hm s. destruct (Hm s) as (E & H & HP). exists E. split; [|done].
  unfold attempt. by destruct (m s) as [[e|[]] s1].
Qed.

Lemma emitsOnly_check P o : emitsOnly P (check o).
Proof. apply emitsOnly_nothing. by destruct o. Qed.

Lemma emitsOnly_lift P {A : Type} (r : result A) : emitsOnly P (lift r).
Proof. apply emitsOnly_nothing. by destruct r. Qed.

Lemma emitsOnly_generate plan set : emitsOnly isGenerateOrStdout (generate plan set).
Proof.
  unfold generate. apply emitsOnly_bind; [by apply emitsOnly_nothing|]. intros d.
  apply emitsOnly_bind; [by apply emitsOnly_emit|]. intros _.
  by apply emitsOnly_nothing.
Qed.

Lemma emitsOnly_convertToPlan : emitsOnly isGenerateOrStdout convertToPlan.
Proof.
  unfold convertToPlan. apply emitsOnly_bind; [by apply emitsOnly_nothing|]. intros d.
  apply emitsOnly_bind; [by apply emitsOnly_emit|]. intros _.
  by apply emitsOnly_nothing.
Qed.

Lemma emitsOnly_Generate : emitsOnly isGenerateOrStdout Generate.
Proof.
  unfold Generate. apply emitsOnly_bind; [|intros _].
  - unfold generateShellFiles, ShellPlan.
    apply emitsOnly_bind; [apply emitsOnly_convertToPlan|]. intros plan.
    apply emitsOnly_bind; [apply emitsOnly_attempt, emitsOnly_generate|]. intros err.
    apply emitsOnly_bind; [by apply emitsOnly_emit|]. intros _.
    apply emitsOnly_check.
  - unfold generateBuildFiles.
    apply emitsOnly_bind; [|intros p].
    + unfold BuildPlan.
      apply emitsOnly_bind; [apply emitsOnly_convertToPlan|]. intros userPlan.
      apply emitsOnly_bind; [by apply emitsOnly_nothing|]. intros d.
      apply emitsOnly_bind; [apply emitsOnly_lift|]. intros buildPlan.
      apply emitsOnly_lift.
    + apply emitsOnly_bind; [apply emitsOnly_check|]. intros _.
      apply emitsOnly_bind; [|intros _; apply emitsOnly_generate].
      destruct (planWarning p); [by apply emitsOnly_emit | by apply emitsOnly_nothing].
Qed.

(** X7. [Generate] only generates and prints: it leaves the receiver as it
    was, and every effect of the call is a call of [generate] or output on
    stdout.  It never writes the config, never creates the profile
    directory, never runs a command and never writes to the writer. *)
Theorem Generate_only_generates_and_prints (s : State) :
  box (snd (Generate s)) = box s
  /\ exists E,
       trace (snd (Generate s)) = trace s ++ E
       /\ Forall isGenerateOrStdout E
       /\ (forall file c, EvWriteConfig file c ∉ E)
       /\ (forall dir, EvMkdirAll dir ∉ E)
       /\ (forall cmd, EvExec cmd ∉ E)
       /\ (forall text, EvWriter text ∉ E).
Proof.
  split; [apply steady_box, steady_Generate|].
  destruct (emitsOnly_Generate s) as (E & HE & HP). exists E.
  split; [done|]. split; [done|].
  rewrite Forall_forall in HP.
  repeat split; intros; intros Hin; by apply HP in Hin.
Qed.

(** X8. When rendering the shell files fails, [Generate] returns that error
    and stops there: the planner is not consulted and no build file is
    generated. *)
Theorem Generate_stops_when_shell_files_fail (s : State) (e : error) :
  fst (shellOutputs (box s)) = Some e ->
  Generate s = (inl e, shellFilesGenerated s).
Proof.
  intros He. unfold Generate, bind. by rewrite generateShellFiles_run, He.
Qed.

(** *** The build files *)

Lemma BuildPlan_run (s : State) :
  BuildPlan s
  = (match GetBuildPlan (srcDir (box s)) with
     | inl e => inl e
     | inr inferred => plansdk.MergeUserPlan hardConflict (planOf (cfg (box s))) inferred
     end,
     addEvent (EvStdoutPlan (planOf (cfg (box s)))) s).
Proof.
  destruct s as [b fs tr].
  unfold BuildPlan, convertToPlan, bind, getBox, emit, modify, ret, lift. simpl.
  destruct (GetBuildPlan _) as [e|inferred]; simpl; [done|].
  unfold fail. by destruct (plansdk.MergeUserPlan _ _ _).
Qed.

(** X9. [generateBuildFiles] checks the merged plan before it writes.  For
    the plan [BuildPlan] returns: if the plan is invalid the call returns the
    error of the plan and no file is generated; if it is valid the build
    templates are rendered with that plan and the result of the rendering is
    returned, a warning of the plan being printed first without stopping the
    call. *)
Theorem generateBuildFiles_checks_the_plan (s : State) (p : plansdk.Plan) :
  fst (BuildPlan s) = inr p ->
  (forall e, planInvalid p = Some e ->
     generateBuildFiles s
     = (inl e, addEvent (EvStdoutPlan (planOf (cfg (box s)))) s))
  /\ (planInvalid p = None ->
      generateBuildFiles s
      = (match fst (buildOutputs (box s) p) with Some e => inl e | None => inr tt end,
         {| box := box s;
            files := generator.applyWrites (snd (buildOutputs (box s) p)) (files s);
            trace := trace s ++ [EvStdoutPlan (planOf (cfg (box s)))]
                     ++ warningEvents p
                     ++ [EvGenerate (srcDir (box s)) p buildFiles] |})).
Proof.
  intros Hp. rewrite BuildPlan_run in Hp. simpl in Hp.
  assert (forall k : plansdk.Plan -> M unit,
            bind BuildPlan k s
            = k p (addEvent (EvStdoutPlan (planOf (cfg (box s)))) s)) as Hbind.
  { intros k. unfold bind. by rewrite BuildPlan_run, Hp. }
  unfold generateBuildFiles. rewrite Hbind. split.
  - intros e He. unfold bind, check. by rewrite He.
  - intros Hv. unfold bind at 1, check at 1. rewrite Hv. unfold ret at 1.
    destruct s as [b fs tr]. unfold warningEvents, buildOutputs. simpl.
    unfold bind at 1.
    destruct (planWarning p) as [w|];
      unfold emit, modify, ret, generate, bind, getBox, onFiles, setFiles, addEvent;
      simpl; rewrite generator_facts.generate_outputs; simpl;
      by rewrite <- !(assoc_L (++)).
Qed.

(** *** Opening an environment *)

(** X10. [Open] returns a devbox exactly when the starting directory has an
    absolute form, some directory on the way from it up to the root holds a
    devbox.json, and the config read from the deepest such directory is
    readable: the devbox returned has that directory as its source directory
    and that config. *)
Theorem Open_returns_the_deepest_config (dir : string) (d : Devbox) :
  Open dir = inr d
  <-> exists cur,
        Abs dir = inr cur
        /\ srcDir d `prefix_of` cur
        /\ FileExists (Join (srcDir d) [configFilename]) = true
        /\ (forall d', d' `prefix_of` cur ->
                       FileExists (Join d' [configFilename]) = true ->
                       d' `prefix_of` srcDir d)
        /\ ReadConfig (Join (srcDir d) [configFilename]) = inr (cfg d).
Proof.
  unfold Open, findConfigDir. destruct (Abs dir) as [msg|cur].
  { split; [done | by intros (cur & [=] & _)]. }
  pose proof (findUp_spec cur) as Hspec.
  destruct (findUp cur) as [found|].
  - destruct Hspec as (Hpre & Hfile & Hdeep). split.
    + destruct (ReadConfig _) as [msg|c] eqn:Hread; [done|].
      intros [= <-]. exists cur. by repeat split.
    + intros (cur' & [= <-] & Hpre' & Hfile' & Hdeep' & Hread).
      assert (found = srcDir d) as ->.
      { apply prefix_length_eq; [by apply Hdeep'|].
        apply prefix_length. by apply Hdeep. }
      rewrite Hread. by destruct d.
  - split; [done|]. intros (cur' & [= <-] & Hpre & Hfile & _).
    specialize (Hspec _ Hpre). congruence.
Qed.



End Methods.

Section Run.
Context `{world : Collaborators} `{launchers : Launchers}.



(** X13. [Build] generates the build files first and does not call
    [docker.Build] when that fails.  When it succeeds [docker.Build] is
    called on the source directory with two sets of flags: first the defaults,
    which carry the name of the given flags and the Dockerfile of the
    generated directory and nothing else, then the given flags themselves. *)
Theorem Build_generates_then_builds (flags : BuildFlags FlagsRest) (s : State) :
  (forall e, fst (generateBuildFiles s) = inl e ->
     Build flags s = (inl e, snd (generateBuildFiles s), []))
  /\ (fst (generateBuildFiles s) = inr tt ->
      let opts :=
        [ {| Name := Name flags;
             DockerfilePath := Join (srcDir (box s)) [".devbox"; "gen"; "Dockerfile"];
             otherFlags := zeroRest |};
          flags ] in
      Build flags s
      = (match dockerBuild (srcDir (box s)) opts with
         | Some msg => inl (ErrExternal msg)
         | None => inr tt
         end,
         snd (generateBuildFiles s),
         [LaunchDockerBuild (srcDir (box s)) opts])).
Proof.
  pose proof (steady_box generateBuildFiles s steady_generateBuildFiles) as Hbox.
  unfold Build, thenLaunch, bind, getBox. cbv zeta.
  destruct (generateBuildFiles s) as [[e|[]] s1]; cbn [fst snd] in *.
  - split; [by intros e' [= <-] | done].
  - split; [done|]. intros _. unfold ret. cbn [fst snd box]. rewrite Hbox.
    unfold external. by destruct (dockerBuild _ _).
Qed.

End Run.

(** *** Concrete runs *)

Lemma Add_extends_the_list_witness :
  Forall (fun pkg => PkgExists (Collaborators := demoWorld) pkg = true) ["go"; "git"; "go"]
  /\ Packages (cfg (box demoState))
     `prefix_of` Packages (cfg (box (snd (Add (world := demoWorld) ["go"; "git"; "go"]
                                            demoState))))
  /\ "go" ∈ Packages (cfg (box (snd (Add (world := demoWorld) ["go"; "git"; "go"]
                                        demoState)))).
Proof.
  assert (Forall (fun pkg => PkgExists (Collaborators := demoWorld) pkg = true)
            ["go"; "git"; "go"]) as Hv by (by repeat constructor).
  split; [exact Hv|].
  destruct (Add_extends_the_list (world := demoWorld) ["go"; "git"; "go"] demoState Hv)
    as (Hpre & Hall & _).
  split; [exact Hpre|]. exact (Forall_inv Hall).
Defined.

Lemma save_failure_witness :
  writeFileErr (Collaborators := brokenDiskWorld)
    (Join (srcDir (box demoState)) [configFilename]) = Some "read-only file system"
  /\ fst (Add (world := brokenDiskWorld) ["go"] demoState)
     = inl (ErrExternal "read-only file system")
  /\ Packages (cfg (box (snd (Add (world := brokenDiskWorld) ["go"] demoState))))
     = ["git"; "go"]
  /\ files (snd (Add (world := brokenDiskWorld) ["go"] demoState)) = ∅.
Proof.
  split; [reflexivity|].
  assert (Forall (fun pkg => PkgExists (Collaborators := brokenDiskWorld) pkg = true)
            ["go"]) as Hv by (by repeat constructor).
  destruct (save_failure_stops_but_keeps_the_change (world := brokenDiskWorld)
              ["go"] demoState "read-only file system" eq_refl Hv) as [HA _].
  rewrite HA. by repeat split.
Defined.

Lemma generation_failure_witness :
  fst (shellOutputs (world := brokenTemplateWorld) (box demoState))
  = Some (ErrTemplate "development.nix.tmpl" "unexpected EOF")
  /\ fst (ensurePackagesAreInstalled (world := brokenTemplateWorld) install demoState)
     = inl (ErrTemplate "development.nix.tmpl" "unexpected EOF")
  /\ files (snd (ensurePackagesAreInstalled (world := brokenTemplateWorld) install
                   demoState))
     !! "/home/proj/.devbox/gen/shell.nix" = Some "git".
Proof.
  split; [reflexivity|].
  rewrite (ensurePackagesAreInstalled_generation_failure (world := brokenTemplateWorld)
             install demoState _ eq_refl).
  split; [reflexivity | by vm_compute].
Defined.

Lemma nix_env_failure_witness :
  run (Collaborators := brokenNixWorld) (nixEnvCmd (box demoState)) = RunExit 1 ""
  /\ fst (Add (world := brokenNixWorld) ["go"] demoState)
     = inl (ErrWrap (ErrRunExit (nixEnvCmd (box demoState)) 1 "") "apply Nix derivation")
  /\ Packages (cfg (box (snd (Add (world := brokenNixWorld) ["go"] demoState))))
     = ["git"; "go"].
Proof.
  split; [reflexivity|].
  assert (Forall (fun pkg => PkgExists (Collaborators := brokenNixWorld) pkg = true)
            ["go"]) as Hv by (by repeat constructor).
  destruct (Add_keeps_the_config_when_nix_env_fails (world := brokenNixWorld)
              ["go"] demoState 1 "" Hv eq_refl (fun _ => eq_refl) eq_refl eq_refl)
    as (Hres & Hcfg & _).
  split; [exact Hres|]. by rewrite Hcfg.
Defined.

Lemma Generate_stops_witness :
  fst (shellOutputs (world := brokenTemplateWorld) (box demoState))
  = Some (ErrTemplate "development.nix.tmpl" "unexpected EOF")
  /\ Generate (world := brokenTemplateWorld) demoState
     = (inl (ErrTemplate "development.nix.tmpl" "unexpected EOF"),
        shellFilesGenerated (world := brokenTemplateWorld) demoState).
Proof.
  split; [reflexivity|].
  exact (Generate_stops_when_shell_files_fail (world := brokenTemplateWorld)
           demoState _ eq_refl).
Defined.

Lemma generateBuildFiles_witness :
  (exists p, fst (BuildPlan (world := demoWorld) demoState) = inr p
             /\ planInvalid (Collaborators := demoWorld) p = None)
  /\ fst (generateBuildFiles (world := demoWorld) demoState) = inr tt.
Proof.
  assert (exists p, fst (BuildPlan (world := demoWorld) demoState) = inr p
                    /\ planInvalid (Collaborators := demoWorld) p = None) as Hp.
  { eexists. split; [vm_compute; reflexivity | reflexivity]. }
  split; [exact Hp|]. destruct Hp as (p & Hp & Hvalid).
  rewrite (proj2 (generateBuildFiles_checks_the_plan (world := demoWorld)
                    demoState p Hp) Hvalid).
  reflexivity.
Defined.

Lemma update_message_witness :
  Getenv (Collaborators := demoWorld) "DEVBOX_SHELL_ENABLED" ∈ enabledValues
  /\ trace (snd (printPackageUpdateMessage (world := demoWorld) uninstall
                   ["git"; "go"] demoState))
     = [EvWriter "git, go are now removed."; EvWriter hashHint].
Proof.
  assert (Getenv (Collaborators := demoWorld) "DEVBOX_SHELL_ENABLED" ∈ enabledValues)
    as Hin by left.
  split; [exact Hin|].
  destruct (update_message_written_iff (world := demoWorld) uninstall ["git"; "go"]
              demoState) as (_ & _ & _ & _ & _ & Hmany).
  rewrite Hmany; [reflexivity | simpl; lia | exact Hin].
Defined.



Lemma Build_witness :
  fst (generateBuildFiles (world := demoWorld) demoState) = inr tt
  /\ snd (Build (world := demoWorld) (launchers := demoLaunchers)
            {| Name := "app"; DockerfilePath := ["custom"; "Dockerfile"];
               otherFlags := ["latest"] |} demoState)
     = [LaunchDockerBuild (launchers := demoLaunchers) ["home"; "proj"]
          [ {| Name := "app";
               DockerfilePath := ["home"; "proj"; ".devbox"; "gen"; "Dockerfile"];
               otherFlags := [] |};
            {| Name := "app"; DockerfilePath := ["custom"; "Dockerfile"];
               otherFlags := ["latest"] |} ]].
Proof.
  assert (fst (generateBuildFiles (world := demoWorld) demoState) = inr tt) as Hok
    by (vm_compute; reflexivity).
  split; [exact Hok|].
  rewrite (proj2 (Build_generates_then_builds (world := demoWorld)
                    (launchers := demoLaunchers) _ demoState) Hok).
  reflexivity.
Defined.

End devbox_more.

(** ** Package [nix]: further properties of the shellrc template *)

Module nix_more.

Import nix nix_facts nix_layout.

(** X14. The layout of the rendered shellrc.  With an original shellrc the
    file begins with it, verbatim between a Begin and an End marker that name
    its path, and the post-init hook comes right after it, so the PATH and the
    prompt are set once the user's shellrc has run; without one the file
    begins with the post-init hook.  The file always ends with the End marker
    of the script command and a newline. *)
Theorem shellrc_layout (d : shellrcData) :
  (OriginalInit d <> EmptyString ->
   startsWith (render d)
     (lines ["# Begin " +:+ OriginalInitPath d; ""; OriginalInit d; "";
             "# End " +:+ OriginalInitPath d; ""; ""]
      +:+ postInitBlock d))
  /\ (OriginalInit d = EmptyString -> startsWith (render d) (postInitBlock d))
  /\ endsWith (render d) (lines ["# End Script command"; ""]).
Proof.
  pose proof (render_sections d) as Hr. split; [|split].
  - intros Hne%emptyb_false. eexists. rewrite Hr. unfold originalInitBlock.
    rewrite Hne. unfold lines. cbn [gostrings.Join].
    rewrite ?append_assoc. reflexivity.
  - intros He%emptyb_true. eexists. rewrite Hr. unfold originalInitBlock.
    rewrite He. reflexivity.
  - exists (originalInitBlock d +:+ postInitBlock d +:+ userHookBlock d
            +:+ planInitHookBlock d +:+ lines [""; ""; "# Begin Script command"]
            +:+ (if emptyb (ScriptCommand d) then EmptyString else runScriptFunction d)
            +:+ nl +:+ nl).
    rewrite Hr. unfold scriptBlock. rewrite ?append_assoc. reflexivity.
Qed.

(** X15. The two optional lines of the fixed sections.  The HISTFILE
    assignment follows the PATH line when a history file is given, and the
    PATH line is followed by the blank line alone when none is.  The plan
    init hook stands between its two markers when the plan has one, and the
    markers follow each other with one blank line between them when it has
    none: they are written in both cases. *)
Theorem shellrc_optional_lines (d : shellrcData) :
  (HistoryFile d <> EmptyString ->
   contains (render d)
     (lines ["PATH=" +:+ dq +:+ PathPrepend d +:+ ":$PATH" +:+ dq;
             "HISTFILE=" +:+ HistoryFile d; ""; "# Prepend"]))
  /\ (HistoryFile d = EmptyString ->
      contains (render d)
        (lines ["PATH=" +:+ dq +:+ PathPrepend d +:+ ":$PATH" +:+ dq; ""; "# Prepend"]))
  /\ (PlanInitHook d <> EmptyString ->
      contains (render d)
        (lines ["# Begin Plan Init Hook"; ""; PlanInitHook d; ""; "# End Plan Init Hook"]))
  /\ (PlanInitHook d = EmptyString ->
      contains (render d)
        (lines ["# Begin Plan Init Hook"; ""; "# End Plan Init Hook"])).
Proof.
  pose proof (render_sections d) as Hr. repeat apply conj.
  - intros Hne%emptyb_false.
    exists (originalInitBlock d +:+ lines ["# Begin Devbox Post-init Hook"; ""; ""]).
    eexists. rewrite Hr. unfold postInitBlock. rewrite Hne.
    unfold lines. cbn [gostrings.Join]. rewrite ?append_assoc. reflexivity.
  - intros He%emptyb_true.
    exists (originalInitBlock d +:+ lines ["# Begin Devbox Post-init Hook"; ""; ""]).
    eexists. rewrite Hr. unfold postInitBlock. rewrite He.
    unfold lines. cbn [gostrings.Join]. rewrite ?append_assoc. reflexivity.
  - intros Hne%emptyb_false.
    exists (originalInitBlock d +:+ postInitBlock d +:+ userHookBlock d +:+ nl +:+ nl).
    eexists. rewrite Hr. unfold planInitHookBlock. rewrite Hne.
    unfold lines. cbn [gostrings.Join]. rewrite ?append_assoc. reflexivity.
  - intros He%emptyb_true.
    exists (originalInitBlock d +:+ postInitBlock d +:+ userHookBlock d +:+ nl +:+ nl).
    eexists. rewrite Hr. unfold planInitHookBlock. rewrite He.
    unfold lines. cbn [gostrings.Join]. rewrite ?append_assoc. reflexivity.
Qed.

(** X16. A field under an [if] is read only when the [if] holds.  The config
    directory does not influence the file when both the user hook and the
    script command are empty, and the path of the original shellrc does not
    influence it when the original shellrc is empty. *)
Theorem shellrc_guarded_fields (d : shellrcData) :
  (UserHook d = EmptyString -> ScriptCommand d = EmptyString ->
   forall dir, render (withConfigDir d dir) = render d)
  /\ (OriginalInit d = EmptyString ->
      forall p, render (withOriginalInitPath d p) = render d).
Proof.
  split.
  - intros Hu Hs dir. rewrite !render_sections.
    destruct d as [oi oip pp hf uh cd pih sc]. simpl in *. subst. reflexivity.
  - intros Ho p. rewrite !render_sections.
    destruct d as [oi oip pp hf uh cd pih sc]. simpl in *. subst. reflexivity.
Qed.

Lemma shellrc_layout_witness :
  OriginalInit demoData <> EmptyString
  /\ startsWith (render demoData)
       (lines ["# Begin ~/.bashrc"; ""; "alias ll=ls"; ""; "# End ~/.bashrc"; ""; ""]
        +:+ postInitBlock demoData).
Proof.
  assert (OriginalInit demoData <> EmptyString) as Hne by done.
  split; [exact Hne|].
  exact (proj1 (shellrc_layout demoData) Hne).
Defined.

Lemma shellrc_optional_lines_witness :
  HistoryFile demoData <> EmptyString
  /\ PlanInitHook demoData = EmptyString
  /\ contains (render demoData)
       (lines ["PATH=" +:+ dq +:+ PathPrepend demoData +:+ ":$PATH" +:+ dq;
               "HISTFILE=" +:+ HistoryFile demoData; ""; "# Prepend"])
  /\ contains (render demoData)
       (lines ["# Begin Plan Init Hook"; ""; "# End Plan Init Hook"]).
Proof.
  assert (HistoryFile demoData <> EmptyString) as Hne by done.
  destruct (shellrc_optional_lines demoData) as (Hh & _ & _ & Hp).
  split; [exact Hne|]. split; [reflexivity|].
  split; [exact (Hh Hne) | exact (Hp eq_refl)].
Defined.

Lemma shellrc_guarded_fields_witness :
  UserHook bareData = EmptyString /\ ScriptCommand bareData = EmptyString
  /\ render (withConfigDir bareData "/elsewhere") = render bareData.
Proof.
  split; [reflexivity|]. split; [reflexivity|].
  exact (proj1 (shellrc_guarded_fields bareData) eq_refl eq_refl "/elsewhere").
Defined.

End nix_more.

(** ** Package [mutagen]: further properties *)

Module mutagen_more.

Import mutagen.

(** X17. Which error [Validate] returns: the alpha path is tested first.  The
    error is the one of the alpha path exactly when the alpha path is empty,
    whatever the beta path is, and the one of the beta path exactly when the
    alpha path is set and the beta path is empty. *)
Theorem Validate_reports_alpha_first (s : SessionSpec) :
  (Validate s = Some (ErrNew "alpha path is required") <-> AlphaPath s = "")
  /\ (Validate s = Some (ErrNew "beta path is required")
      <-> AlphaPath s <> "" /\ BetaPath s = "").
Proof.
  unfold Validate.
  destruct (String.eqb_spec (AlphaPath s) "") as [Ha|Ha].
  { split; [done|]. split; [done | by intros [? _]]. }
  destruct (String.eqb_spec (BetaPath s) "") as [Hb|Hb].
  { split; [done|]. by split. }
  split; [done|]. split; [done | by intros [_ ?]].
Qed.

Section Install.
Context `{host : Host}.

(** X18. [Install] returns nil exactly when its four steps all succeed: the
    install directory is created, the download returns a file, the file can
    be opened and the archive is extracted.  The files are then the former
    files with the downloaded archive and, over it, what the archive held. *)
Theorem Install_nil_iff_all_steps_succeed (url installDir : string) (s : State) :
  (fst (Install url installDir s) = None
   <-> mkdirAllErr installDir = None
       /\ exists tarPath tarball extracted,
            grabGet TempDir url = inr (tarPath, tarball)
            /\ openErr tarPath = None
            /\ untar tarball installDir = inr extracted)
  /\ (forall tarPath tarball extracted,
        mkdirAllErr installDir = None ->
        grabGet TempDir url = inr (tarPath, tarball) ->
        openErr tarPath = None ->
        untar tarball installDir = inr extracted ->
        Install url installDir s
        = (None,
           {| files := foldl (fun m e => <[e.1 := e.2]> m)
                         (<[tarPath := tarball]> (files s)) extracted;
              trace := trace s ++ [ EvMkdirAll installDir; EvDownload TempDir url;
                                    EvOpen tarPath; EvUntar installDir ] |})).
Proof.
  unfold Install. split.
  - destruct (mkdirAllErr installDir) as [msg|]; [split; [done | by intros [? _]]|].
    destruct (grabGet TempDir url) as [msg|[tarPath tarball]].
    { split; [done | by intros [_ (? & ? & ? & [=] & _)]]. }
    destruct (openErr tarPath) as [msg|] eqn:Ho.
    { split; [done|]. intros [_ (? & ? & ? & [= <- <-] & Ho' & _)]. congruence. }
    destruct (untar tarball installDir) as [msg|extracted] eqn:Hu.
    { split; [done|]. intros [_ (? & ? & ? & [= <- <-] & _ & Hu')]. congruence. }
    split; [|done]. intros _. split; [done|]. by exists tarPath, tarball, extracted.
  - intros tarPath tarball extracted -> -> -> ->. simpl.
    by rewrite <- !(assoc_L (++)).
Qed.

(** X19. [Install] goes step by step and stops at the first failure.  The
    download is attempted exactly when the install directory could be
    created; the archive is extracted only after the directory was created,
    the download returned a file and the file was opened; and the files are
    as before unless the download returned a file. *)
Theorem Install_stops_at_the_first_failure (url installDir : string) (s : State) :
  exists E,
    trace (snd (Install url installDir s)) = trace s ++ EvMkdirAll installDir :: E
    /\ (EvDownload TempDir url ∈ E <-> mkdirAllErr installDir = None)
    /\ (EvUntar installDir ∈ E ->
        mkdirAllErr installDir = None
        /\ exists tarPath tarball,
             grabGet TempDir url = inr (tarPath, tarball) /\ openErr tarPath = None)
    /\ (files (snd (Install url installDir s)) <> files s ->
        exists tarPath tarball, grabGet TempDir url = inr (tarPath, tarball)).
Proof.
  unfold Install.
  destruct (mkdirAllErr installDir) as [msg|].
  { exists []. simpl. split; [done|]. split; [|split]; [|by intros ?%elem_of_nil|done].
    split; [by intros ?%elem_of_nil | done]. }
  destruct (grabGet TempDir url) as [msg|[tarPath tarball]].
  { exists [EvDownload TempDir url]. simpl. rewrite <- (assoc_L (++)).
    split; [done|]. split; [split; [done | intros _; left]|].
    split; [|done]. by intros [=]%list_elem_of_singleton. }
  destruct (openErr tarPath) as [msg|] eqn:Ho.
  { exists [EvDownload TempDir url; EvOpen tarPath]. simpl.
    rewrite <- !(assoc_L (++)).
    split; [done|]. split; [split; [done | intros _; left]|].
    split; [|intros _; by exists tarPath, tarball].
    intros [[=]|[[=]|[]%elem_of_nil]%elem_of_cons]%elem_of_cons. }
  exists [EvDownload TempDir url; EvOpen tarPath; EvUntar installDir].
  destruct (untar tarball installDir) as [msg|extracted]; simpl;
    rewrite <- !(assoc_L (++));
    (split; [done|]); (split; [split; [done | intros _; left]|]).
  - split; [intros _; split; [done | by exists tarPath, tarball]
            | intros _; by exists tarPath, tarball].
  - split; [intros _; split; [done | by exists tarPath, tarball]
            | intros _; by exists tarPath, tarball].
Qed.

(** X20. Whatever [InstallMutagenOnce] downloads comes from one place: the
    v0.16.1 release of mutagen for the operating system and the architecture
    of the host, fetched into the temporary directory; and whatever it creates
    or extracts goes to the directory of the binary path. *)
Theorem InstallMutagenOnce_fetches_the_release (binPath : string) (s : State) :
  exists E,
    trace (snd (InstallMutagenOnce binPath s)) = trace s ++ E
    /\ (forall tmp url,
          EvDownload tmp url ∈ E ->
          tmp = TempDir
          /\ url = "https://github.com/mutagen-io/mutagen/releases/download/v0.16.1/mutagen_"
                   +:+ GOOS +:+ "_" +:+ GOARCH +:+ "_v0.16.1.tar.gz")
    /\ (forall dir, EvMkdirAll dir ∈ E -> dir = Dir binPath)
    /\ (forall dir, EvUntar dir ∈ E -> dir = Dir binPath).
Proof.
  assert (mutagenURL
          = "https://github.com/mutagen-io/mutagen/releases/download/v0.16.1/mutagen_"
            +:+ GOOS +:+ "_" +:+ GOARCH +:+ "_v0.16.1.tar.gz") as Hurl.
  { unfold mutagenURL, detectPlatform, detectOS, detectArch.
    rewrite ?nix_facts.append_assoc. reflexivity. }
  unfold InstallMutagenOnce. rewrite Hurl. unfold Install.
  set (url := _ +:+ _).
  assert (forall (E : list event),
            Forall (fun e => match e with
                             | EvDownload tmp u => tmp = TempDir /\ u = url
                             | EvMkdirAll dir | EvUntar dir => dir = Dir binPath
                             | EvOpen _ => True
                             end) E ->
            (forall tmp u, EvDownload tmp u ∈ E -> tmp = TempDir /\ u = url)
            /\ (forall dir, EvMkdirAll dir ∈ E -> dir = Dir binPath)
            /\ (forall dir, EvUntar dir ∈ E -> dir = Dir binPath)) as Hall.
  { intros E HE. rewrite Forall_forall in HE.
    split; [|split].
    - intros tmp u Hin. by apply HE in Hin.
    - intros dir Hin. by apply HE in Hin.
    - intros dir Hin. by apply HE in Hin. }
  destruct (IsFile (files s) binPath).
  { exists []. simpl. rewrite (right_id_L [] (++)). split; [done|].
    apply Hall. constructor. }
  destruct (mkdirAllErr _).
  { eexists. split; [reflexivity|]. apply Hall. by repeat constructor. }
  destruct (grabGet _ _) as [msg|[tarPath tarball]].
  { eexists. simpl. rewrite <- (assoc_L (++)). split; [reflexivity|].
    apply Hall. by repeat constructor. }
  destruct (openErr _).
  { eexists. simpl. rewrite <- !(assoc_L (++)). split; [reflexivity|].
    apply Hall. by repeat constructor. }
  destruct (untar _ _); eexists; simpl; rewrite <- !(assoc_L (++));
    (split; [reflexivity|]); apply Hall; by repeat constructor.
Qed.

End Install.

Import mutagen_hosts.

Lemma Install_nil_witness :
  mkdirAllErr (Host := onlineHost) "/opt/mutagen/bin" = None
  /\ Install (host := onlineHost) "https://example.org/m.tar.gz" "/opt/mutagen/bin"
       emptyMachine
     = (None,
        {| files := {[ "/tmp/mutagen.tar.gz" := "TAR"; "/opt/mutagen/bin/mutagen" := "ELF" ]};
           trace := [ EvMkdirAll "/opt/mutagen/bin";
                      EvDownload "/tmp" "https://example.org/m.tar.gz";
                      EvOpen "/tmp/mutagen.tar.gz"; EvUntar "/opt/mutagen/bin" ] |}).
Proof.
  split; [reflexivity|].
  rewrite (proj2 (Install_nil_iff_all_steps_succeed (host := onlineHost)
                    "https://example.org/m.tar.gz" "/opt/mutagen/bin" emptyMachine)
             "/tmp/mutagen.tar.gz" "TAR" [("/opt/mutagen/bin/mutagen", "ELF")]
             eq_refl eq_refl eq_refl eq_refl).
  reflexivity.
Defined.

End mutagen_more.
